(** * TelegramBot: the per-user session mechanics of [bot.py]

    A shallow embedding of the handlers of [src/bot.py] and the properties
    of its session store, attachment ingestion and conversation relay.

    Modelling conventions.
    - A Python [str] is a [string]; slicing and concatenation do not depend
      on the alphabet, so [s[:4000]] is [substring 0 4000 s].
    - [datetime] values are integers counting microseconds, the resolution
      of Python's [datetime] and [timedelta]; every call of
      [datetime.now()] is a fresh reading of the clock.
    - [user_context] is a finite map from user ids to session records.
    - The handlers run in a state-and-exception monad.  The state holds
      [user_context], the number of clock readings made so far and the
      chronological list of outbound operations.  The Application is built
      without [concurrent_updates], so updates are handled one at a time
      and a handler is one atomic step.
    - The completion API, the file download, the PDF text extraction and
      the Telegram calls made inside a [try] block are described by an
      environment record: each either raises (with the text of the
      exception) or returns.  A Telegram call outside every [try] block is
      taken to return; a run in which such a call raises leaves the handler
      for the framework and is not modelled.
    - The handlers take the sender and the content of [update.message].  An
      update without [update.message], or an attachment without a declared
      size, makes a handler raise before it does anything; [dispatch] has
      these cases. *)

From Stdlib Require Import ZArith String List Lia.
From stdpp Require Import base gmap strings list fin_maps.

Local Open Scope Z_scope.
Local Open Scope string_scope.
Local Open Scope list_scope.

(** ** Constants (bot.py, lines 37-39) *)

Definition MAX_PDF_SIZE : Z := 15 * 1024 * 1024.
Definition MAX_IMAGE_SIZE : Z := 10 * 1024 * 1024.
Definition CONTEXT_TIMEOUT_MINUTES : Z := 10.

(** [timedelta(minutes=m)], in microseconds. *)
Definition timedelta_minutes (m : Z) : Z := m * 60 * 1000000.

(** ** Data model *)

Inductive role := system | user | assistant.

(** The [content] of a chat message: a plain string, or the list of typed
    parts of a multimodal user message. *)
Inductive part :=
| text_part (text : string)
| image_url_part (url : string).

Inductive content :=
| plain (s : string)
| parts (ps : list part).

(** The dict [{"role": ..., "content": ...}]. *)
Record message := { msg_role : role; msg_content : content }.

(** One entry of [user_context]. *)
Record session := {
  history : list message;
  last_seen : Z;
  pdf_text : option string;
  image_data : option string
}.

(** The sender of an update: [update.message.from_user]. *)
Record User := { id : Z; language_code : option string }.

Record Document := { mime_type : string; file_size : Z }.
Record PhotoSize := { photo_file_size : Z }.

(** What a handler does to the outside world, in order. *)
Inductive effect :=
| reply_text (text : string)
| reply_markdown (text : string)
| send_chat_action_typing
| edit_message_text (message_id : Z) (text : string)
| completions_create (model : string) (messages : list message)
| log_error (msg : string).

(** A chunk of the completion stream carries [choices], each with an
    optional [delta.content]; iterating the stream may also raise. *)
Inductive stream_item :=
| chunk (choices : list (option string))
| stream_raises (e : string).

(** The environment of one handler invocation. *)
Record Env := {
  (** the successive readings of [datetime.now()] *)
  clock : nat -> Z;
  (** [client.chat.completions.create(..., stream=True)] *)
  api_create : list message -> string + list stream_item;
  (** [update.message.reply_text("...")] inside the [try] of the relay:
      raises, or returns the message with its [message_id] *)
  send_placeholder : string + Z;
  (** [context.bot.edit_message_text(..., text=t)]: [Some e] raises *)
  send_edit : string -> option string;
  (** [get_file], [download_as_bytearray], [fitz.open] and the page texts *)
  fetch_pdf_pages : string + list string;
  (** [get_file], [download_as_bytearray] and
      [base64.b64encode(file_bytes).decode("utf-8")] *)
  fetch_image_base64 : string + string;
  (** the acknowledgement [reply_text] inside the [try] of an ingestion *)
  send_ack : option string
}.

(** ** The handler monad *)

Record state := {
  user_context : gmap Z session;
  ticks : nat;
  outbox : list effect
}.

Definition M (A : Type) : Type := state -> (string + A) * state.

#[global] Instance M_ret : MRet M := fun A a st => (inr a, st).
#[global] Instance M_bind : MBind M := fun A B f c st =>
  match c st with
  | (inr a, st') => f a st'
  | (inl e, st') => (inl e, st')
  end.

Definition raise {A} (e : string) : M A := fun st => (inl e, st).

(** [try: body except Exception as e: handler(e)] *)
Definition try_except {A} (body : M A) (handler : string -> M A) : M A :=
  fun st =>
    match body st with
    | (inr a, st') => (inr a, st')
    | (inl e, st') => handler e st'
    end.

Definition now (env : Env) : M Z := fun st =>
  (inr (clock env (ticks st)),
   {| user_context := user_context st; ticks := S (ticks st); outbox := outbox st |}).

Definition emit (e : effect) : M unit := fun st =>
  (inr tt,
   {| user_context := user_context st; ticks := ticks st; outbox := outbox st ++ [e] |}).

(** [user_id in user_context] *)
Definition contains (user_id : Z) : M bool := fun st =>
  (inr (bool_decide (is_Some (user_context st !! user_id))), st).

(** [user_context[user_id]], a [KeyError] when absent *)
Definition getitem (user_id : Z) : M session := fun st =>
  match user_context st !! user_id with
  | Some s => (inr s, st)
  | None => (inl "KeyError", st)
  end.

(** [user_context[user_id] = s] *)
Definition setitem (user_id : Z) (s : session) : M unit := fun st =>
  (inr tt,
   {| user_context := <[user_id := s]> (user_context st);
      ticks := ticks st; outbox := outbox st |}).

(** [user_context[user_id][field] = v]: look the session up, then mutate it *)
Definition update_session (user_id : Z) (f : session -> session) : M unit :=
  s ← getitem user_id; setitem user_id (f s).

Definition set_last_seen (t : Z) (s : session) : session :=
  {| history := history s; last_seen := t;
     pdf_text := pdf_text s; image_data := image_data s |}.
Definition set_pdf_text (v : option string) (s : session) : session :=
  {| history := history s; last_seen := last_seen s;
     pdf_text := v; image_data := image_data s |}.
Definition set_image_data (v : option string) (s : session) : session :=
  {| history := history s; last_seen := last_seen s;
     pdf_text := pdf_text s; image_data := v |}.
Definition history_append (m : message) (s : session) : session :=
  {| history := history s ++ [m]; last_seen := last_seen s;
     pdf_text := pdf_text s; image_data := image_data s |}.

(** The session literal of lines 76-81, 96-101, 116-118, 191 and 214. *)
Definition fresh_session (t : Z) : session :=
  {| history := []; last_seen := t; pdf_text := None; image_data := None |}.

(** Truth value of an optional string: [None] and [""] are false. *)
Definition truthy (o : option string) : bool :=
  match o with
  | Some (String _ _) => true
  | _ => false
  end.

(** ** Localization (lines 44-71) *)

Definition get_user_language (u : User) : string :=
  match language_code u with
  | Some l => if truthy (Some l) then l else "en"
  | None => "en"
  end.

Definition nl : string := String (Ascii.ascii_of_nat 10) EmptyString.

Definition en_table : gmap string string :=
  list_to_map [
    ("welcome", "Welcome! I'm an AI assistant. I can help you with text, images, and PDFs. How can I assist you?");
    ("help",
       "Here's what I can do:" +:+ nl +:+ nl +:+
       "- *Text Messages*: Chat with me in any language." +:+ nl +:+
       "- *Image Uploads*: Send an image, and I'll analyze it." +:+ nl +:+
       "- *PDF Uploads*: Send a PDF, and I'll answer questions about it." +:+ nl +:+ nl +:+
       "Use /reset to clear our conversation history.");
    ("reset", "Our conversation history has been cleared.");
    ("pdf_received", "Thank you for the PDF. I'm processing it now. Please ask me a question about its content.");
    ("pdf_too_large", "The PDF file is too large. Please send a file smaller than 15.0 MB.");
    ("image_too_large", "The image file is too large. Please send a file smaller than 10.0 MB.");
    ("unsupported_file", "Sorry, I only support PDF and image files.");
    ("error_processing", "Sorry, I encountered an error while processing your request. Please try again.");
    ("thinking", "Thinking...");
    ("image_received", "I've received your image. What would you like to know about it?")
  ].

Definition translations : gmap string (gmap string string) :=
  {[ "en" := en_table ]}.

(** [translations.get(lang, translations["en"]).get(key, "")] *)
Definition get_translation (lang key : string) : string :=
  default "" (default en_table (translations !! lang) !! key).

(** ** Commands (lines 74-103) *)

Definition start_command (env : Env) (u : User) : M unit :=
  let user_id := id u in
  t ← now env;
  setitem user_id (fresh_session t);;
  let lang := get_user_language u in
  emit (reply_text (get_translation lang "welcome")).

Definition help_command (env : Env) (u : User) : M unit :=
  let lang := get_user_language u in
  emit (reply_markdown (get_translation lang "help")).

Definition reset_command (env : Env) (u : User) : M unit :=
  let user_id := id u in
  present ← contains user_id;
  (if present : bool
   then t ← now env; setitem user_id (fresh_session t)
   else mret tt);;
  let lang := get_user_language u in
  emit (reply_text (get_translation lang "reset")).

(** ** The conversation relay (lines 106-167) *)

(** How an f-string renders the value of a session field. *)
Definition format_str (o : option string) : string :=
  match o with
  | Some s => s
  | None => "None"
  end.

(** [o[:n]]: a slice of a string, a [TypeError] on [None]. *)
Definition slice_to (n : nat) (o : option string) : M string :=
  match o with
  | Some s => mret (substring 0 n s)
  | None => raise "TypeError"
  end.

(** The loop of lines 155-160, with [full_response] as accumulator. *)
Fixpoint stream_loop (env : Env) (message_id : Z) (response : list stream_item)
    (full_response : string) : M string :=
  match response with
  | [] => mret full_response
  | stream_raises e :: _ => raise e
  | chunk [] :: _ => raise "list index out of range"
  | chunk (delta_content :: _) :: rest =>
      if truthy delta_content then
        let full_response := full_response +:+ format_str delta_content in
        match send_edit env full_response with
        | Some e => raise e
        | None =>
            emit (edit_message_text message_id full_response);;
            stream_loop env message_id rest full_response
        end
      else stream_loop env message_id rest full_response
  end.

Definition system_prompt : message :=
  {| msg_role := system; msg_content := plain "You are a helpful assistant." |}.

Definition pdf_prefix : string := "Use the following content from a PDF to answer: ".
Definition image_prefix : string := "data:image/jpeg;base64,".

(** Lines 110-113: the idle-timeout check. *)
Definition idle_check (env : Env) (u : User) : M unit :=
  let user_id := id u in
  present ← contains user_id;
  idle ← (if present : bool
          then t ← now env; s ← getitem user_id;
               mret (t - last_seen s >? timedelta_minutes CONTEXT_TIMEOUT_MINUTES)
          else mret false);
  if idle : bool then reset_command env u else mret tt.

(** Lines 115-118, and again 190-191 and 213-214: create the session when
    the user has none. *)
Definition ensure_session (env : Env) (user_id : Z) : M unit :=
  present ← contains user_id;
  if present : bool
  then mret tt
  else t ← now env; setitem user_id (fresh_session t).

(** Lines 122-142: the list [messages] submitted to the completion API. *)
Definition assemble (user_id : Z) (prompt : string) : M (list message) :=
  s ← getitem user_id;
  let messages := [system_prompt] ++ history s in
  s ← getitem user_id;
  if truthy (image_data s) then
    let url := image_prefix +:+ format_str (image_data s) in
    update_session user_id (set_image_data None);;
    mret (messages ++
          [{| msg_role := user;
              msg_content := parts [text_part prompt; image_url_part url] |}])
  else if truthy (pdf_text s) then
    sl ← slice_to 4000 (pdf_text s);
    let pdf_context := pdf_prefix +:+ sl in
    mret (messages ++
          [{| msg_role := system; msg_content := plain pdf_context |};
           {| msg_role := user; msg_content := plain prompt |}])
  else
    mret (messages ++ [{| msg_role := user; msg_content := plain prompt |}]).

(** Lines 145-160: submit the request, send the placeholder and relay the
    stream; the value is [full_response]. *)
Definition stream_reply (env : Env) (messages : list message) : M string :=
  emit (completions_create "gpt-4o-mini" messages);;
  response ← match api_create env messages with
             | inl e => raise e
             | inr r => mret r
             end;
  message_id ← match send_placeholder env with
               | inl e => raise e
               | inr mid => emit (reply_text "...");; mret mid
               end;
  stream_loop env message_id response "".

(** Lines 162-163. *)
Definition record_turn (user_id : Z) (prompt full_response : string) : M unit :=
  update_session user_id
    (history_append {| msg_role := user; msg_content := plain prompt |});;
  update_session user_id
    (history_append {| msg_role := assistant; msg_content := plain full_response |}).

Definition handle_text_message (env : Env) (u : User) (text : string) : M unit :=
  let user_id := id u in
  let lang := get_user_language u in
  idle_check env u;;
  ensure_session env user_id;;
  t ← now env;
  update_session user_id (set_last_seen t);;
  emit send_chat_action_typing;;
  let prompt := text in
  messages ← assemble user_id prompt;
  try_except
    (full_response ← stream_reply env messages;
     record_turn user_id prompt full_response)
    (fun e =>
       emit (log_error ("Error generating response: " +:+ e));;
       emit (reply_text (get_translation lang "error_processing"))).

(** ** Attachment ingestion (lines 170-220) *)

(** The acknowledgement sent inside the [try] block. *)
Definition acknowledge (env : Env) (text : string) : M unit :=
  match send_ack env with
  | Some e => raise e
  | None => emit (reply_text text)
  end.

Definition handle_document_message (env : Env) (u : User) (document : Document) : M unit :=
  let user_id := id u in
  let lang := get_user_language u in
  if negb (String.eqb (mime_type document) "application/pdf") then
    emit (reply_text (get_translation lang "unsupported_file"))
  else if file_size document >? MAX_PDF_SIZE then
    emit (reply_text (get_translation lang "pdf_too_large"))
  else
    try_except
      (pages ← match fetch_pdf_pages env with
               | inl e => raise e
               | inr ps => mret ps
               end;
       let pdf_text := fold_left (fun acc page => acc +:+ page) pages "" in
       ensure_session env user_id;;
       update_session user_id (set_pdf_text (Some pdf_text));;
       update_session user_id (set_image_data None);;
       acknowledge env (get_translation lang "pdf_received"))
      (fun e =>
         emit (log_error ("Error processing PDF: " +:+ e));;
         emit (reply_text (get_translation lang "error_processing"))).

Definition handle_photo_message (env : Env) (u : User) (photo : PhotoSize) : M unit :=
  let user_id := id u in
  let lang := get_user_language u in
  if photo_file_size photo >? MAX_IMAGE_SIZE then
    emit (reply_text (get_translation lang "image_too_large"))
  else
    try_except
      (image_base64 ← match fetch_image_base64 env with
                      | inl e => raise e
                      | inr b => mret b
                      end;
       ensure_session env user_id;;
       update_session user_id (set_image_data (Some image_base64));;
       update_session user_id (set_pdf_text None);;
       acknowledge env (get_translation lang "image_received"))
      (fun e =>
         emit (log_error ("Error processing image: " +:+ e));;
         emit (reply_text (get_translation lang "error_processing"))).

(** ** Dispatch (lines 236-241) *)

(** What an update carries.  The first four are updates delivered as
    [update.message] with the declared sizes present.  The Bot API marks
    [file_size] optional: the two [WithoutSize] forms are a document and a
    photo that come without it.  [Edited p] is an edited message and
    [ChannelPost p] a channel post (edited or not) with content [p]: for
    both [update.message] is [None].  A command name is the part of the
    command before any [@]; it is made of Latin letters, digits and
    underscores and is addressed to this bot. *)
Inductive payload :=
| Command (name : string)
| Text (body : string)
| DocumentMessage (document : Document)
| Photo (largest : PhotoSize)
| DocumentWithoutSize (mime : string)
| PhotoWithoutSize
| Edited (inner : payload)
| ChannelPost (inner : payload).

Record Update := { from_user : User; update_payload : payload }.

(** [str.lower()] on a command name. *)
Definition lower_ascii (c : Ascii.ascii) : Ascii.ascii :=
  let n := Ascii.nat_of_ascii c in
  if ((65 <=? n) && (n <=? 90))%nat then Ascii.ascii_of_nat (n + 32) else c.

Fixpoint lower (s : string) : string :=
  match s with
  | EmptyString => EmptyString
  | String c rest => String (lower_ascii c) (lower rest)
  end.

(** The content passes the filter of one of the three [MessageHandler]s:
    [filters.TEXT & ~filters.COMMAND], [filters.Document.PDF],
    [filters.PHOTO].  These filters look at [update.effective_message]. *)
Definition has_message_handler (p : payload) : bool :=
  match p with
  | Text _ | Photo _ | PhotoWithoutSize => true
  | DocumentMessage document => String.eqb (mime_type document) "application/pdf"
  | DocumentWithoutSize mime => String.eqb mime "application/pdf"
  | _ => false
  end.

(** The content is taken by one of the three [CommandHandler]s, which
    compare the lower-cased name. *)
Definition has_command_handler (p : payload) : bool :=
  match p with
  | Command name =>
      String.eqb (lower name) "start" || String.eqb (lower name) "help"
      || String.eqb (lower name) "reset"
  | _ => false
  end.

(** What the handlers raise outside every [try] block: line 179 or 205 on
    a missing [file_size], and the first use of [update.message] when it is
    [None]: [update.message.from_user] in every handler but [help_command],
    [update.message.reply_text] there. *)
Definition no_file_size : string :=
  "'>' not supported between instances of 'NoneType' and 'int'".
Definition no_message : string :=
  "'NoneType' object has no attribute 'from_user'".
Definition no_message_to_reply_to : string :=
  "'NoneType' object has no attribute 'reply_text'".

Definition is_help (p : payload) : bool :=
  match p with
  | Command name => String.eqb (lower name) "help"
  | _ => false
  end.

(** The handlers as registered in [main]: the three commands, text that is
    not a command, documents that pass [filters.Document.PDF], photos
    ([update.message.photo[-1]] is the largest size).  Anything else has
    no handler.  A [CommandHandler] also takes edited messages, a
    [MessageHandler] edited messages and channel posts; the handler then
    raises on its first line, before any effect.  With [file_size] missing
    the document and photo handlers raise at their size check, which comes
    before any effect too. *)
Definition dispatch (env : Env) (upd : Update) : M unit :=
  let u := from_user upd in
  match update_payload upd with
  | Command name =>
      if String.eqb (lower name) "start" then start_command env u
      else if String.eqb (lower name) "help" then help_command env u
      else if String.eqb (lower name) "reset" then reset_command env u
      else mret tt
  | Text body => handle_text_message env u body
  | DocumentMessage document =>
      if String.eqb (mime_type document) "application/pdf"
      then handle_document_message env u document
      else mret tt
  | Photo largest => handle_photo_message env u largest
  | DocumentWithoutSize mime =>
      if String.eqb mime "application/pdf" then raise no_file_size else mret tt
  | PhotoWithoutSize => raise no_file_size
  | Edited inner =>
      if has_command_handler inner || has_message_handler inner
      then raise (if is_help inner then no_message_to_reply_to else no_message)
      else mret tt
  | ChannelPost inner =>
      if has_message_handler inner then raise no_message else mret tt
  end.

(** One handler invocation, started on the current [user_context]. *)
Definition run (h : M unit) (ctx : gmap Z session) : (string + unit) * state :=
  h {| user_context := ctx; ticks := 0; outbox := [] |}.

Definition store_after (h : M unit) (ctx : gmap Z session) : gmap Z session :=
  user_context (snd (run h ctx)).

Definition sent_by (h : M unit) (ctx : gmap Z session) : list effect :=
  outbox (snd (run h ctx)).

(** The store after a sequence of updates, each with its environment. *)
Fixpoint run_updates (evs : list (Env * Update)) (ctx : gmap Z session)
    : gmap Z session :=
  match evs with
  | [] => ctx
  | (env, upd) :: rest => run_updates rest (store_after (dispatch env upd) ctx)
  end.

(** The requests submitted to the completion API, in order. *)
Definition prompts (out : list effect) : list (list message) :=
  flat_map (fun e => match e with
                     | completions_create _ messages => [messages]
                     | _ => []
                     end) out.

(** * Notions used in the statements *)

(** ** Closed forms of the handlers *)

Abbreviation St ctx n out := {| user_context := ctx; ticks := n; outbox := out |}.

(** The prompt assembled for a session: the closed form of [assemble]. *)
Definition prompt_for (s : session) (prompt : string) : list message :=
  [system_prompt] ++ history s ++
  match image_data s, pdf_text s with
  | Some (String _ _ as img), _ =>
      [{| msg_role := user;
          msg_content := parts [text_part prompt;
                                image_url_part (image_prefix +:+ img)] |}]
  | _, Some (String _ _ as txt) =>
      [{| msg_role := system;
          msg_content := plain (pdf_prefix +:+ substring 0 4000 txt) |};
       {| msg_role := user; msg_content := plain prompt |}]
  | _, _ => [{| msg_role := user; msg_content := plain prompt |}]
  end.

(** The session once the prompt is assembled: a pending image is consumed. *)
Definition after_assembly (s : session) : session :=
  if truthy (image_data s) then set_image_data None s else s.

Definition st0 : state := St ∅ 0%nat [].

(** The outcome of lines 145-160 for a prompt: the exception that ends the
    turn, or the full streamed reply. *)
Definition streamed (env : Env) (messages : list message) : string + string :=
  fst (stream_reply env messages st0).

(** What lines 145-160 send while doing so. *)
Definition stream_effects (env : Env) (messages : list message) : list effect :=
  outbox (snd (stream_reply env messages st0)).

(** The test of line 110-112 on the first clock reading of the handler. *)
Definition idle (env : Env) (s : session) : bool :=
  clock env 0%nat - last_seen s >? timedelta_minutes CONTEXT_TIMEOUT_MINUTES.

(** The session a text turn works on: what lines 110-120 leave in
    [user_context[user_id]]. *)
Definition turn_session (env : Env) (u : User) (ctx : gmap Z session) : session :=
  match ctx !! id u with
  | Some s =>
      if idle env s
      then set_last_seen (clock env 2%nat) (fresh_session (clock env 1%nat))
      else set_last_seen (clock env 1%nat) s
  | None => set_last_seen (clock env 1%nat) (fresh_session (clock env 0%nat))
  end.

(** What is sent before the relay starts. *)
Definition turn_preamble (env : Env) (u : User) (ctx : gmap Z session) : list effect :=
  match ctx !! id u with
  | Some s =>
      if idle env s
      then [reply_text (get_translation (get_user_language u) "reset")]
      else []
  | None => []
  end ++ [send_chat_action_typing].

Definition user_turn (text : string) : message :=
  {| msg_role := user; msg_content := plain text |}.
Definition assistant_turn (text : string) : message :=
  {| msg_role := assistant; msg_content := plain text |}.

(** The session a text turn leaves behind. *)
Definition turn_result (env : Env) (text : string) (s0 : session) : session :=
  match streamed env (prompt_for s0 text) with
  | inr full_response =>
      history_append (assistant_turn full_response)
        (history_append (user_turn text) (after_assembly s0))
  | inl _ => after_assembly s0
  end.

(** What the [except] branch sends. *)
Definition turn_epilogue (env : Env) (u : User) (text : string) (s0 : session)
    : list effect :=
  match streamed env (prompt_for s0 text) with
  | inr _ => []
  | inl e =>
      [log_error ("Error generating response: " +:+ e);
       reply_text (get_translation (get_user_language u) "error_processing")]
  end.

(** The session an ingestion stores into: the user's, or the one created
    at lines 191 and 214. *)
Definition ingest_session (env : Env) (u : User) (ctx : gmap Z session) : session :=
  default (fresh_session (clock env 0%nat)) (ctx !! id u).

(** What the end of an ingestion [try] block sends. *)
Definition ack_effects (env : Env) (u : User) (ack failure : string) : list effect :=
  match send_ack env with
  | None => [reply_text (get_translation (get_user_language u) ack)]
  | Some e =>
      [log_error (failure +:+ e);
       reply_text (get_translation (get_user_language u) "error_processing")]
  end.

Definition pdf_text_of (pages : list string) : string :=
  fold_left (fun acc page => acc +:+ page) pages "".

(** The history a text turn starts from: that of the session, or none
    after the idle reset and for a user without a session. *)
Definition turn_history (env : Env) (u : User) (ctx : gmap Z session) : list message :=
  match ctx !! id u with
  | Some s => if idle env s then [] else history s
  | None => []
  end.

(** The text a stream item contributes: the content of the delta of its
    first choice. *)
Definition delta_text (item : stream_item) : string :=
  match item with
  | chunk (Some s :: _) => s
  | _ => ""
  end.

(** ** Predicates on sessions, prompts and turns *)


(** At most one kind of attachment is pending. *)
Definition exclusive (s : session) : Prop :=
  pdf_text s = None \/ image_data s = None.

(** The image URLs a list of messages carries, in order. *)
Definition images_of (m : message) : list string :=
  match msg_content m with
  | plain _ => []
  | parts ps =>
      flat_map (fun p => match p with
                         | image_url_part url => [url]
                         | text_part _ => []
                         end) ps
  end.

Definition images_in (messages : list message) : list string :=
  flat_map images_of messages.

(** The history holds plain text entries only. *)
Definition plain_history (s : session) : Prop := images_in (history s) = [].

Definition well_formed (s : session) : Prop := exclusive s /\ plain_history s.

(** The system message that carries the document context of a turn. *)
Definition pdf_context_message (txt : string) : message :=
  {| msg_role := system;
     msg_content := plain (pdf_prefix +:+ substring 0 4000 txt) |}.

(** The multimodal user message of lines 129-135. *)
Definition image_message (text img : string) : message :=
  {| msg_role := user;
     msg_content := parts [text_part text; image_url_part (image_prefix +:+ img)] |}.

(** The prompts of consecutive text messages of one user, and the store
    they leave. *)
Fixpoint text_prompts (u : User) (turns : list (Env * string))
    (ctx : gmap Z session) : list (list message) :=
  match turns with
  | [] => []
  | (env, text) :: rest =>
      prompts (sent_by (handle_text_message env u text) ctx)
        ++ text_prompts u rest (store_after (handle_text_message env u text) ctx)
  end.

Fixpoint after_texts (u : User) (turns : list (Env * string))
    (ctx : gmap Z session) : gmap Z session :=
  match turns with
  | [] => ctx
  | (env, text) :: rest =>
      after_texts u rest (store_after (handle_text_message env u text) ctx)
  end.

(** No message of the sequence meets the idle reset. *)
Fixpoint within_timeout (u : User) (turns : list (Env * string))
    (ctx : gmap Z session) : bool :=
  match turns with
  | [] => true
  | (env, text) :: rest =>
      negb (if ctx !! id u is Some s then idle env s else false)
      && within_timeout u rest (store_after (handle_text_message env u text) ctx)
  end.

(** The relay raises [e] on the prompt that the handler submits. *)
Definition turn_raises (env : Env) (u : User) (text : string)
    (ctx : gmap Z session) (e : string) : Prop :=
  exists messages,
    prompts (sent_by (handle_text_message env u text) ctx) = [messages] /\
    streamed env messages = inl e.

(** ** Sample inputs *)

Definition alice : User := {| id := 7; language_code := Some "de" |}.

(** An environment whose clock stands at [t], whose completion API streams
    [Hel], an empty delta and [lo], and in which nothing raises. *)
Definition calm_env (t : Z) : Env :=
  {| clock := fun _ => t;
     api_create := fun _ => inr [chunk [Some "Hel"]; chunk [None]; chunk [Some "lo"]];
     send_placeholder := inr 42;
     send_edit := fun _ => None;
     fetch_pdf_pages := inr ["ab"; "cd"];
     fetch_image_base64 := inr "QUJD";
     send_ack := None |}.

(** The same, with a completion API that raises. *)
Definition failing_env (t : Z) : Env :=
  {| clock := fun _ => t;
     api_create := fun _ => inl "APIConnectionError";
     send_placeholder := inr 42;
     send_edit := fun _ => None;
     fetch_pdf_pages := inl "FileDataError";
     fetch_image_base64 := inl "NetworkError";
     send_ack := None |}.

Definition minutes (m : Z) : Z := timedelta_minutes m.

Definition stale_session : session :=
  {| history := [user_turn "hello"; assistant_turn "Hi!"];
     last_seen := 0; pdf_text := Some "abcd"; image_data := None |}.

Definition pdf_1MB : Document :=
  {| mime_type := "application/pdf"; file_size := 1024 * 1024 |}.


Definition photo_5MB : PhotoSize := {| photo_file_size := 5 * 1024 * 1024 |}.

Definition session_seen_at_0 : session :=
  {| history := [user_turn "hello"; assistant_turn "Hi!"];
     last_seen := 0; pdf_text := None; image_data := None |}.

Fixpoint repeat_string (n : nat) (s : string) : string :=
  match n with
  | O => ""
  | S n' => s +:+ repeat_string n' s
  end.

Definition abc_6000 : string := repeat_string 2000 "ABC".

Definition session_with_pdf : session :=
  {| history := []; last_seen := 0;
     pdf_text := Some abc_6000; image_data := None |}.

Definition two_questions : list (Env * string) :=
  [(calm_env (minutes 1), "what is it about?");
   (calm_env (minutes 2), "and who wrote it?")].

Definition photo_from_alice : list (Env * Update) :=
  [(calm_env 0, {| from_user := alice; update_payload := Photo photo_5MB |})].

Definition photo_session : session :=
  {| history := []; last_seen := 0; pdf_text := None; image_data := Some "QUJD" |}.

(** ** Notions for the further properties *)

(** The command menu registered by [post_init] (lines 223-228). *)
Definition bot_commands : list (string * string) :=
  [("start", "Start the bot");
   ("help", "Get help on how to use the bot");
   ("reset", "Reset the conversation")].

(** Each text of the list extends the one before it, starting from [acc],
    by a non-empty piece. *)
Inductive growing : string -> list string -> Prop :=
| growing_nil acc : growing acc []
| growing_cons acc c piece rest :
    growing (acc +:+ String c piece) rest ->
    growing acc ((acc +:+ String c piece) :: rest).

(** What the relay may send between the request and the end of the
    stream: the placeholder and edits of one message. *)
Definition relay_effect (e : effect) : Prop :=
  match e with
  | completions_create _ _ => True
  | reply_text t => t = "..."
  | edit_message_text _ _ => True
  | _ => False
  end.

(** The text an outbound message carries is not empty. *)
Definition carries_text (e : effect) : Prop :=
  match e with
  | reply_text t | reply_markdown t | edit_message_text _ t => t <> ""
  | _ => True
  end.

(** A history made of question and answer pairs. *)
Definition exchanges (turns : list (string * string)) : list message :=
  flat_map (fun turn => [user_turn (fst turn); assistant_turn (snd turn)]) turns.

(** The relay completes with [full_response] on the prompt that the
    handler submits. *)
Definition turn_completes (env : Env) (u : User) (text : string)
    (ctx : gmap Z session) (full_response : string) : Prop :=
  exists messages,
    prompts (sent_by (handle_text_message env u text) ctx) = [messages] /\
    streamed env messages = inr full_response.

(** The two ways in which [handle_photo_message] turns a photo down, each
    with what it then sends. *)
Inductive photo_rejected (env : Env) (u : User) (photo : PhotoSize)
    : list effect -> Prop :=
| photo_rejected_too_large :
    photo_file_size photo > MAX_IMAGE_SIZE ->
    photo_rejected env u photo
      [reply_text (get_translation (get_user_language u) "image_too_large")]
| photo_rejected_unfetchable e :
    photo_file_size photo <= MAX_IMAGE_SIZE ->
    fetch_image_base64 env = inl e ->
    photo_rejected env u photo
      [log_error ("Error processing image: " +:+ e);
       reply_text (get_translation (get_user_language u) "error_processing")].

(** The history is a sequence of completed exchanges. *)
Definition paired (s : session) : Prop :=
  exists turns, history s = exchanges turns.

(** The updates on which a handler raises outside its [try] block: no
    [update.message], or no [file_size]. *)
Definition escapes (upd : Update) : bool :=
  match update_payload upd with
  | DocumentWithoutSize mime => String.eqb mime "application/pdf"
  | PhotoWithoutSize => true
  | Edited inner => has_command_handler inner || has_message_handler inner
  | ChannelPost inner => has_message_handler inner
  | _ => false
  end.

(** More sample inputs. *)
Definition bob : User := {| id := 8; language_code := None |}.

Definition pdf_15MB : Document :=
  {| mime_type := "application/pdf"; file_size := 15 * 1024 * 1024 |}.

Definition photo_10MB : PhotoSize := {| photo_file_size := 10 * 1024 * 1024 |}.

Definition photo_11MB : PhotoSize := {| photo_file_size := 11 * 1024 * 1024 |}.

(** An environment in which the download works and the acknowledgement
    raises. *)
Definition mute_env (t : Z) : Env :=
  {| clock := fun _ => t;
     api_create := fun _ => inr [chunk [Some "Hel"]; chunk [None]; chunk [Some "lo"]];
     send_placeholder := inr 42;
     send_edit := fun _ => None;
     fetch_pdf_pages := inr ["ab"; "cd"];
     fetch_image_base64 := inr "QUJD";
     send_ack := Some "TimedOut" |}.

(** An environment whose PDF has two pages without text. *)
Definition scanned_env (t : Z) : Env :=
  {| clock := fun _ => t;
     api_create := fun _ => inr [chunk [Some "Hel"]; chunk [None]; chunk [Some "lo"]];
     send_placeholder := inr 42;
     send_edit := fun _ => None;
     fetch_pdf_pages := inr [""; ""];
     fetch_image_base64 := inr "QUJD";
     send_ack := None |}.

(** An environment whose stream ends with a chunk that has no choices. *)
Definition usage_chunk_env (t : Z) : Env :=
  {| clock := fun _ => t;
     api_create := fun _ => inr [chunk [Some "Hello"]; chunk []];
     send_placeholder := inr 42;
     send_edit := fun _ => None;
     fetch_pdf_pages := inr ["ab"; "cd"];
     fetch_image_base64 := inr "QUJD";
     send_ack := None |}.

Definition text_from (u : User) (body : string) : Update :=
  {| from_user := u; update_payload := Text body |}.

Definition hello_from_alice : list (Env * Update) :=
  [(calm_env (minutes 1), text_from alice "hi");
   (failing_env (minutes 2), text_from alice "anyone?");
   (calm_env (minutes 3), text_from alice "again")].

(** * Properties *)

(** ** Running the primitives *)

#[local] Arguments substring : simpl never.

Lemma contains_run user_id ctx n out :
  contains user_id (St ctx n out)
  = (inr (if ctx !! user_id is Some _ then true else false), St ctx n out).
Proof. unfold contains; cbn. by destruct (ctx !! user_id). Qed.

Lemma update_session_run user_id f ctx n out s :
  ctx !! user_id = Some s ->
  update_session user_id f (St ctx n out)
  = (inr tt, St (<[user_id := f s]> ctx) n out).
Proof.
  intros Hs. unfold update_session, mbind, M_bind, getitem, setitem; cbn.
  by rewrite Hs.
Qed.

Lemma reset_command_run env u ctx n out :
  reset_command env u (St ctx n out)
  = (inr tt,
     match ctx !! id u with
     | Some _ =>
         St (<[id u := fresh_session (clock env n)]> ctx) (S n)
            (out ++ [reply_text (get_translation (get_user_language u) "reset")])
     | None =>
         St ctx n
            (out ++ [reply_text (get_translation (get_user_language u) "reset")])
     end).
Proof.
  unfold reset_command, mbind, M_bind. rewrite contains_run.
  by destruct (ctx !! id u).
Qed.

Lemma idle_check_run env u ctx n out :
  idle_check env u (St ctx n out)
  = (inr tt,
     match ctx !! id u with
     | Some s =>
         if clock env n - last_seen s >? timedelta_minutes CONTEXT_TIMEOUT_MINUTES
         then St (<[id u := fresh_session (clock env (S n))]> ctx) (S (S n))
                 (out ++ [reply_text (get_translation (get_user_language u) "reset")])
         else St ctx (S n) out
     | None => St ctx n out
     end).
Proof.
  unfold idle_check, mbind, M_bind. rewrite contains_run.
  destruct (ctx !! id u) as [s|] eqn:Hs; [|done].
  unfold getitem, now, mret, M_ret; cbn. rewrite Hs.
  destruct (_ >? _); [|done].
  rewrite reset_command_run; cbn. by rewrite Hs.
Qed.

Lemma ensure_session_run env user_id ctx n out :
  ensure_session env user_id (St ctx n out)
  = (inr tt,
     match ctx !! user_id with
     | Some _ => St ctx n out
     | None => St (<[user_id := fresh_session (clock env n)]> ctx) (S n) out
     end).
Proof.
  unfold ensure_session, mbind, M_bind. rewrite contains_run.
  by destruct (ctx !! user_id).
Qed.

(** ** The relay, phase by phase *)

Lemma assemble_run user_id prompt ctx n out s :
  ctx !! user_id = Some s ->
  assemble user_id prompt (St ctx n out)
  = (inr (prompt_for s prompt), St (<[user_id := after_assembly s]> ctx) n out).
Proof.
  intros Hs. unfold assemble, mbind, M_bind, getitem; cbn.
  rewrite Hs; cbn. rewrite Hs; cbn.
  unfold prompt_for, after_assembly.
  destruct (image_data s) as [[|c img]|] eqn:Himg; cbn.
  2:{ rewrite (update_session_run _ _ _ _ _ s Hs).
      by unfold mret, M_ret. }
  all: destruct (pdf_text s) as [[|c txt]|] eqn:Hpdf; cbn;
    unfold mret, M_ret; by rewrite (insert_id _ _ _ Hs).
Qed.

Lemma stream_loop_frame env mid response :
  forall full ctx n out,
    stream_loop env mid response full (St ctx n out)
    = (fst (stream_loop env mid response full st0),
       St ctx n (out ++ outbox (snd (stream_loop env mid response full st0)))).
Proof.
  induction response as [|item rest IH]; intros full ctx n out; cbn.
  - unfold mret, M_ret; cbn. by rewrite app_nil_r.
  - destruct item as [[|delta choices]|e]; cbn.
    + unfold raise; cbn. by rewrite app_nil_r.
    + destruct (truthy delta); [|apply IH].
      destruct (send_edit env _) as [e|].
      * unfold raise; cbn. by rewrite app_nil_r.
      * unfold mbind, M_bind, emit; cbn.
        rewrite (IH _ ctx n), (IH _ ∅ 0%nat [_]); cbn.
        by rewrite <- app_assoc.
    + unfold raise; cbn. by rewrite app_nil_r.
Qed.

Lemma stream_reply_frame env messages ctx n out :
  stream_reply env messages (St ctx n out)
  = (streamed env messages, St ctx n (out ++ stream_effects env messages)).
Proof.
  unfold streamed, stream_effects, stream_reply, mbind, M_bind, emit, st0; cbn.
  destruct (api_create env messages) as [e|response]; [done|].
  unfold mret, M_ret; cbn.
  destruct (send_placeholder env) as [e|mid]; [done|]; cbn.
  rewrite (stream_loop_frame _ _ _ _ ctx n), (stream_loop_frame _ _ _ _ ∅ 0%nat [_; _]).
  cbn. by rewrite <- !app_assoc.
Qed.

Lemma record_turn_run user_id prompt full ctx n out s :
  ctx !! user_id = Some s ->
  record_turn user_id prompt full (St ctx n out)
  = (inr tt,
     St (<[user_id :=
            history_append {| msg_role := assistant; msg_content := plain full |}
              (history_append {| msg_role := user; msg_content := plain prompt |} s)]>
           ctx) n out).
Proof.
  intros Hs. unfold record_turn, mbind, M_bind.
  rewrite (update_session_run _ _ _ _ _ s Hs).
  erewrite update_session_run by apply lookup_insert_eq.
  by rewrite insert_insert_eq.
Qed.

(** ** A text turn in closed form *)

Lemma relay_run env u text ctx n out s0 :
  ctx !! id u = Some s0 ->
  (messages ← assemble (id u) text;
   try_except
     (full_response ← stream_reply env messages;
      record_turn (id u) text full_response)
     (fun e =>
        emit (log_error ("Error generating response: " +:+ e));;
        emit (reply_text (get_translation (get_user_language u) "error_processing"))))
    (St ctx n out)
  = (inr tt,
     St (<[id u := turn_result env text s0]> ctx) n
        (out ++ stream_effects env (prompt_for s0 text)
             ++ turn_epilogue env u text s0)).
Proof.
  intros Hs. unfold mbind at 1; unfold M_bind.
  rewrite (assemble_run _ _ _ _ _ s0 Hs).
  unfold try_except, mbind, M_bind. rewrite stream_reply_frame.
  unfold turn_result, turn_epilogue.
  destruct (streamed env (prompt_for s0 text)) as [e|full].
  - unfold emit; cbn. by rewrite <- !app_assoc.
  - erewrite record_turn_run by apply lookup_insert_eq.
    by rewrite insert_insert_eq, app_nil_r.
Qed.

Lemma handle_text_message_run env u text ctx :
  run (handle_text_message env u text) ctx
  = (inr tt,
     St (<[id u := turn_result env text (turn_session env u ctx)]> ctx)
        (match ctx !! id u with
         | Some s => if idle env s then 3%nat else 2%nat
         | None => 2%nat
         end)
        (turn_preamble env u ctx
           ++ stream_effects env (prompt_for (turn_session env u ctx) text)
           ++ turn_epilogue env u text (turn_session env u ctx))).
Proof.
  unfold run, handle_text_message.
  unfold mbind at 1; unfold M_bind. rewrite idle_check_run.
  unfold turn_session, turn_preamble, idle.
  destruct (ctx !! id u) as [s|] eqn:Hs.
  - destruct (_ >? _).
    + unfold mbind at 1; unfold M_bind. rewrite ensure_session_run.
      rewrite lookup_insert_eq.
      unfold mbind at 1; unfold M_bind, now; cbn [ticks user_context outbox].
      unfold mbind at 1; unfold M_bind.
      erewrite update_session_run by apply lookup_insert_eq.
      rewrite insert_insert_eq.
      unfold mbind at 1; unfold M_bind, emit; cbn [ticks user_context outbox].
      erewrite relay_run by apply lookup_insert_eq.
      by rewrite insert_insert_eq, <- !app_assoc.
    + unfold mbind at 1; unfold M_bind. rewrite ensure_session_run, Hs.
      unfold mbind at 1; unfold M_bind, now; cbn [ticks user_context outbox].
      unfold mbind at 1; unfold M_bind.
      rewrite (update_session_run _ _ _ _ _ s Hs).
      unfold mbind at 1; unfold M_bind, emit; cbn [ticks user_context outbox].
      erewrite relay_run by apply lookup_insert_eq.
      by rewrite insert_insert_eq, <- !app_assoc.
  - unfold mbind at 1; unfold M_bind. rewrite ensure_session_run, Hs.
    unfold mbind at 1; unfold M_bind, now; cbn [ticks user_context outbox].
    unfold mbind at 1; unfold M_bind.
    erewrite update_session_run by apply lookup_insert_eq.
    rewrite insert_insert_eq.
    unfold mbind at 1; unfold M_bind, emit; cbn [ticks user_context outbox].
    erewrite relay_run by apply lookup_insert_eq.
    by rewrite insert_insert_eq, <- !app_assoc.
Qed.

(** ** Attachment ingestion in closed form *)

Lemma store_attachment_run env u f g ack failure ctx :
  try_except
    (ensure_session env (id u);;
     update_session (id u) f;;
     update_session (id u) g;;
     acknowledge env (get_translation (get_user_language u) ack))
    (fun e =>
       emit (log_error (failure +:+ e));;
       emit (reply_text (get_translation (get_user_language u) "error_processing")))
    (St ctx 0%nat [])
  = (inr tt,
     St (<[id u := g (f (ingest_session env u ctx))]> ctx)
        (if ctx !! id u is Some _ then 0%nat else 1%nat)
        (ack_effects env u ack failure)).
Proof.
  unfold try_except, ingest_session, ack_effects, acknowledge.
  unfold mbind at 1; unfold M_bind. rewrite ensure_session_run.
  destruct (ctx !! id u) as [s|] eqn:Hs; cbn [default].
  - unfold mbind at 1; unfold M_bind.
    rewrite (update_session_run _ _ _ _ _ s Hs).
    unfold mbind at 1; unfold M_bind.
    erewrite update_session_run by apply lookup_insert_eq.
    rewrite insert_insert_eq.
    by destruct (send_ack env).
  - unfold mbind at 1; unfold M_bind.
    erewrite update_session_run by apply lookup_insert_eq.
    rewrite insert_insert_eq.
    unfold mbind at 1; unfold M_bind.
    erewrite update_session_run by apply lookup_insert_eq.
    rewrite insert_insert_eq.
    by destruct (send_ack env).
Qed.

Lemma handle_document_message_run env u document ctx :
  run (handle_document_message env u document) ctx
  = (inr tt,
     if negb (String.eqb (mime_type document) "application/pdf") then
       St ctx 0%nat [reply_text (get_translation (get_user_language u) "unsupported_file")]
     else if file_size document >? MAX_PDF_SIZE then
       St ctx 0%nat [reply_text (get_translation (get_user_language u) "pdf_too_large")]
     else
       match fetch_pdf_pages env with
       | inl e =>
           St ctx 0%nat
              [log_error ("Error processing PDF: " +:+ e);
               reply_text (get_translation (get_user_language u) "error_processing")]
       | inr pages =>
           St (<[id u := set_image_data None
                           (set_pdf_text (Some (pdf_text_of pages))
                              (ingest_session env u ctx))]> ctx)
              (if ctx !! id u is Some _ then 0%nat else 1%nat)
              (ack_effects env u "pdf_received" "Error processing PDF: ")
       end).
Proof.
  unfold run, handle_document_message.
  destruct (negb _); [done|].
  destruct (_ >? _); [done|].
  destruct (fetch_pdf_pages env) as [e|pages].
  - by unfold try_except, mbind, M_bind; cbn.
  - rewrite <- (store_attachment_run env u _ _ "pdf_received" "Error processing PDF: ").
    unfold try_except. by unfold mbind at 1; unfold M_bind.
Qed.

Lemma handle_photo_message_run env u photo ctx :
  run (handle_photo_message env u photo) ctx
  = (inr tt,
     if photo_file_size photo >? MAX_IMAGE_SIZE then
       St ctx 0%nat [reply_text (get_translation (get_user_language u) "image_too_large")]
     else
       match fetch_image_base64 env with
       | inl e =>
           St ctx 0%nat
              [log_error ("Error processing image: " +:+ e);
               reply_text (get_translation (get_user_language u) "error_processing")]
       | inr image_base64 =>
           St (<[id u := set_pdf_text None
                           (set_image_data (Some image_base64)
                              (ingest_session env u ctx))]> ctx)
              (if ctx !! id u is Some _ then 0%nat else 1%nat)
              (ack_effects env u "image_received" "Error processing image: ")
       end).
Proof.
  unfold run, handle_photo_message.
  destruct (_ >? _); [done|].
  destruct (fetch_image_base64 env) as [e|b].
  - by unfold try_except, mbind, M_bind; cbn.
  - rewrite <- (store_attachment_run env u _ _ "image_received" "Error processing image: ").
    unfold try_except. by unfold mbind at 1; unfold M_bind.
Qed.

(** ** What each handler leaves in the store and sends *)

Lemma store_after_text env u text ctx :
  store_after (handle_text_message env u text) ctx
  = <[id u := turn_result env text (turn_session env u ctx)]> ctx.
Proof. unfold store_after. by rewrite handle_text_message_run. Qed.

Lemma sent_by_text env u text ctx :
  sent_by (handle_text_message env u text) ctx
  = turn_preamble env u ctx
      ++ stream_effects env (prompt_for (turn_session env u ctx) text)
      ++ turn_epilogue env u text (turn_session env u ctx).
Proof. unfold sent_by. by rewrite handle_text_message_run. Qed.

Lemma store_after_reset env u ctx :
  store_after (reset_command env u) ctx
  = match ctx !! id u with
    | Some _ => <[id u := fresh_session (clock env 0%nat)]> ctx
    | None => ctx
    end.
Proof.
  unfold store_after, run. rewrite reset_command_run.
  by destruct (ctx !! id u).
Qed.

Lemma sent_by_reset env u ctx :
  sent_by (reset_command env u) ctx
  = [reply_text (get_translation (get_user_language u) "reset")].
Proof.
  unfold sent_by, run. rewrite reset_command_run.
  by destruct (ctx !! id u).
Qed.

Lemma store_after_start env u ctx :
  store_after (start_command env u) ctx
  = <[id u := fresh_session (clock env 0%nat)]> ctx.
Proof. reflexivity. Qed.

Lemma store_after_help env u ctx : store_after (help_command env u) ctx = ctx.
Proof. reflexivity. Qed.

Lemma store_after_document env u document ctx :
  store_after (handle_document_message env u document) ctx
  = if negb (String.eqb (mime_type document) "application/pdf") then ctx
    else if file_size document >? MAX_PDF_SIZE then ctx
    else match fetch_pdf_pages env with
         | inl _ => ctx
         | inr pages =>
             <[id u := set_image_data None
                         (set_pdf_text (Some (pdf_text_of pages))
                            (ingest_session env u ctx))]> ctx
         end.
Proof.
  unfold store_after. rewrite handle_document_message_run; cbn.
  destruct (negb _); [done|]. destruct (_ >? _); [done|].
  by destruct (fetch_pdf_pages env).
Qed.

Lemma store_after_photo env u photo ctx :
  store_after (handle_photo_message env u photo) ctx
  = if photo_file_size photo >? MAX_IMAGE_SIZE then ctx
    else match fetch_image_base64 env with
         | inl _ => ctx
         | inr image_base64 =>
             <[id u := set_pdf_text None
                         (set_image_data (Some image_base64)
                            (ingest_session env u ctx))]> ctx
         end.
Proof.
  unfold store_after. rewrite handle_photo_message_run; cbn.
  destruct (_ >? _); [done|].
  by destruct (fetch_image_base64 env).
Qed.

(** The relay submits exactly one request: the assembled prompt. *)
Lemma prompts_app out1 out2 : prompts (out1 ++ out2) = prompts out1 ++ prompts out2.
Proof. apply flat_map_app. Qed.

Lemma stream_loop_prompts env mid response :
  forall full, prompts (outbox (snd (stream_loop env mid response full st0))) = [].
Proof.
  induction response as [|item rest IH]; intros full; cbn; [done|].
  destruct item as [[|delta choices]|e]; cbn; [done| |done].
  destruct (truthy delta); [|apply IH].
  destruct (send_edit env _) as [e|]; [done|].
  unfold mbind, M_bind, emit, st0; cbn.
  rewrite stream_loop_frame; cbn. apply IH.
Qed.

Lemma stream_effects_prompts env messages :
  prompts (stream_effects env messages) = [messages].
Proof.
  unfold stream_effects, stream_reply, mbind, M_bind, emit, st0; cbn.
  destruct (api_create env messages) as [e|response]; [done|].
  unfold mret, M_ret; cbn.
  destruct (send_placeholder env) as [e|mid]; [done|]; cbn.
  rewrite stream_loop_frame; cbn.
  f_equal. apply stream_loop_prompts.
Qed.

Lemma prompts_text env u text ctx :
  prompts (sent_by (handle_text_message env u text) ctx)
  = [prompt_for (turn_session env u ctx) text].
Proof.
  rewrite sent_by_text, !prompts_app, stream_effects_prompts.
  unfold turn_preamble, turn_epilogue.
  destruct (streamed env _) as [e|full]; destruct (ctx !! id u) as [s|];
    try destruct (idle env s); reflexivity.
Qed.

(** ** Localization *)

Lemma get_translation_en_table lang key :
  get_translation lang key = default "" (en_table !! key).
Proof.
  unfold get_translation, translations.
  destruct (decide (lang = "en")) as [->|Hne].
  - by rewrite lookup_singleton_eq.
  - by rewrite lookup_singleton_ne.
Qed.

Example get_translation_reset :
  get_translation "de" "reset" = "Our conversation history has been cleared.".
Proof. rewrite get_translation_en_table. vm_compute. reflexivity. Qed.

(** C10. Whatever the language code, the lookup answers with the entry of
    the English table for the key, and with the empty string for a key the
    table does not have. *)
Theorem get_translation_english_only (lang key : string) :
  get_translation lang key = get_translation "en" key /\
  get_translation lang key
  = match en_table !! key with
    | Some entry => entry
    | None => ""
    end.
Proof.
  rewrite !get_translation_en_table. split; [reflexivity|].
  by destruct (en_table !! key).
Qed.

Lemma get_user_language_default (u : User) :
  language_code u = None \/ language_code u = Some "" ->
  get_user_language u = "en".
Proof. unfold get_user_language. by intros [-> | ->]. Qed.

(** ** Reset *)

(** C4. [/reset] sends the localized confirmation; a user who has a
    session is left with an empty history and no pending attachment of
    either kind, whatever the session held; a user who has none still has
    none. *)
Theorem reset_command_clears (env : Env) (u : User) (ctx : gmap Z session) :
  sent_by (reset_command env u) ctx
  = [reply_text (get_translation (get_user_language u) "reset")] /\
  match ctx !! id u with
  | Some _ =>
      exists s',
        store_after (reset_command env u) ctx !! id u = Some s' /\
        history s' = [] /\ pdf_text s' = None /\ image_data s' = None
  | None => store_after (reset_command env u) ctx !! id u = None
  end.
Proof.
  split; [apply sent_by_reset|].
  rewrite store_after_reset.
  destruct (ctx !! id u) as [s|] eqn:Hs; [|done].
  exists (fresh_session (clock env 0%nat)).
  by rewrite lookup_insert_eq.
Qed.

(** ** Rejected documents *)



(** ** The idle timeout *)

Lemma idle_true_iff env s :
  idle env s = true <->
  clock env 0%nat - last_seen s > timedelta_minutes CONTEXT_TIMEOUT_MINUTES.
Proof. unfold idle. apply Z.gtb_gt. Qed.

Lemma idle_false_iff env s :
  idle env s = false <->
  clock env 0%nat - last_seen s <= timedelta_minutes CONTEXT_TIMEOUT_MINUTES.
Proof.
  unfold idle. destruct (Z.gtb_spec (clock env 0%nat - last_seen s)
                           (timedelta_minutes CONTEXT_TIMEOUT_MINUTES)); split;
    intros; (done || lia).
Qed.

(** An ingestion never touches the history or the timestamp of a session
    that exists. *)
Lemma document_keeps_history_and_last_seen env u document ctx s :
  ctx !! id u = Some s ->
  exists s',
    store_after (handle_document_message env u document) ctx !! id u = Some s' /\
    history s' = history s /\ last_seen s' = last_seen s.
Proof.
  intros Hs. rewrite store_after_document. unfold ingest_session. rewrite Hs.
  destruct (negb _); [by exists s|].
  destruct (_ >? _); [by exists s|].
  destruct (fetch_pdf_pages env); [by exists s|].
  rewrite lookup_insert_eq. by eexists.
Qed.

Lemma photo_keeps_history_and_last_seen env u photo ctx s :
  ctx !! id u = Some s ->
  exists s',
    store_after (handle_photo_message env u photo) ctx !! id u = Some s' /\
    history s' = history s /\ last_seen s' = last_seen s.
Proof.
  intros Hs. rewrite store_after_photo. unfold ingest_session. rewrite Hs.
  destruct (_ >? _); [by exists s|].
  destruct (fetch_image_base64 env); [by exists s|].
  rewrite lookup_insert_eq. by eexists.
Qed.

Lemma turn_session_idle env u ctx s :
  ctx !! id u = Some s -> idle env s = true ->
  turn_session env u ctx
  = set_last_seen (clock env 2%nat) (fresh_session (clock env 1%nat)).
Proof. intros Hs Hidle. unfold turn_session. by rewrite Hs, Hidle. Qed.

Lemma turn_session_active env u ctx s :
  ctx !! id u = Some s -> idle env s = false ->
  turn_session env u ctx = set_last_seen (clock env 1%nat) s.
Proof. intros Hs Hidle. unfold turn_session. by rewrite Hs, Hidle. Qed.

Lemma stream_effects_head env messages :
  exists rest,
    stream_effects env messages = completions_create "gpt-4o-mini" messages :: rest.
Proof.
  unfold stream_effects, stream_reply, mbind, M_bind, emit, st0; cbn.
  destruct (api_create env messages) as [e|response]; [by eexists|].
  unfold mret, M_ret; cbn.
  destruct (send_placeholder env) as [e|mid]; [by eexists|]; cbn.
  rewrite stream_loop_frame; cbn. by eexists.
Qed.

(** C5. A text message whose first clock reading is more than 10 minutes
    past [last_seen] is answered with the reset confirmation first, then
    processed: its request is the system instruction and the new text
    alone, no history and no attachment, as after [/reset].  The session
    it leaves is the fresh one of the reset, stamped at line 120, with
    nothing pending and with the new exchange as its whole history (an
    empty history when the turn fails).  A document or a photo arriving
    that late leaves history and timestamp as they were: the check is made
    for text only. *)
Theorem idle_timeout_resets_before_text (env : Env) (u : User) (text : string)
    (document : Document) (photo : PhotoSize) (ctx : gmap Z session) (s : session) :
  ctx !! id u = Some s ->
  clock env 0%nat - last_seen s > timedelta_minutes CONTEXT_TIMEOUT_MINUTES ->
  (exists rest,
     sent_by (handle_text_message env u text) ctx
     = reply_text (get_translation (get_user_language u) "reset")
         :: send_chat_action_typing
         :: completions_create "gpt-4o-mini" [system_prompt; user_turn text]
         :: rest) /\
  prompts (sent_by (handle_text_message env u text) ctx)
  = [[system_prompt; user_turn text]] /\
  (exists s',
     store_after (handle_text_message env u text) ctx !! id u = Some s' /\
     last_seen s' = clock env 2%nat /\
     pdf_text s' = None /\ image_data s' = None /\
     history s' = match streamed env [system_prompt; user_turn text] with
                  | inr full_response =>
                      [user_turn text; assistant_turn full_response]
                  | inl _ => []
                  end) /\
  (exists s',
     store_after (handle_document_message env u document) ctx !! id u = Some s' /\
     history s' = history s /\ last_seen s' = last_seen s) /\
  (exists s',
     store_after (handle_photo_message env u photo) ctx !! id u = Some s' /\
     history s' = history s /\ last_seen s' = last_seen s).
Proof.
  intros Hs Hlate. apply idle_true_iff in Hlate.
  pose proof (turn_session_idle env u ctx s Hs Hlate) as Hts.
  split; [|split; [|split; [|split]]].
  - rewrite sent_by_text, Hts. unfold turn_preamble. rewrite Hs, Hlate.
    destruct (stream_effects_head env
                (prompt_for (set_last_seen (clock env 2%nat)
                               (fresh_session (clock env 1%nat))) text))
      as [rest ->].
    eexists. reflexivity.
  - rewrite prompts_text, Hts. reflexivity.
  - rewrite store_after_text, lookup_insert_eq, Hts. eexists; split; [done|].
    unfold turn_result; cbn.
    by destruct (streamed env _).
  - by apply document_keeps_history_and_last_seen.
  - by apply photo_keeps_history_and_last_seen.
Qed.

Lemma idle_timeout_after_eleven_minutes :
  (exists rest,
     sent_by (handle_text_message (calm_env (minutes 11)) alice "still there?")
       {[ 7 := stale_session ]}
     = reply_text "Our conversation history has been cleared."
         :: send_chat_action_typing
         :: completions_create "gpt-4o-mini" [system_prompt; user_turn "still there?"]
         :: rest) /\
  prompts (sent_by (handle_text_message (calm_env (minutes 11)) alice "still there?")
             {[ 7 := stale_session ]})
  = [[system_prompt; user_turn "still there?"]] /\
  (exists s',
     store_after (handle_text_message (calm_env (minutes 11)) alice "still there?")
       {[ 7 := stale_session ]} !! id alice = Some s' /\
     last_seen s' = clock (calm_env (minutes 11)) 2%nat /\
     pdf_text s' = None /\ image_data s' = None /\
     history s' = match streamed (calm_env (minutes 11))
                          [system_prompt; user_turn "still there?"] with
                  | inr full_response =>
                      [user_turn "still there?"; assistant_turn full_response]
                  | inl _ => []
                  end) /\
  (exists s',
     store_after (handle_document_message (calm_env (minutes 11)) alice pdf_1MB)
       {[ 7 := stale_session ]} !! 7 = Some s' /\
     history s' = history stale_session /\ last_seen s' = 0) /\
  (exists s',
     store_after (handle_photo_message (calm_env (minutes 11)) alice photo_5MB)
       {[ 7 := stale_session ]} !! 7 = Some s' /\
     history s' = history stale_session /\ last_seen s' = 0).
Proof.
  apply (idle_timeout_resets_before_text (calm_env (minutes 11)) alice "still there?"
           pdf_1MB photo_5MB {[ 7 := stale_session ]} stale_session).
  - reflexivity.
  - vm_compute. reflexivity.
Defined.

(** ** The timestamp *)

(** A text message sets [last_seen] to a clock reading of its own
    handling: the reading of line 120. *)
Lemma text_sets_last_seen env u text ctx :
  exists s',
    store_after (handle_text_message env u text) ctx !! id u = Some s' /\
    last_seen s' = match ctx !! id u with
                   | Some s => if idle env s then clock env 2%nat else clock env 1%nat
                   | None => clock env 1%nat
                   end.
Proof.
  rewrite store_after_text, lookup_insert_eq. eexists; split; [reflexivity|].
  unfold turn_result, turn_session, after_assembly.
  destruct (ctx !! id u) as [s|]; [destruct (idle env s)|];
    destruct (streamed env _); cbn; try reflexivity;
    by destruct (truthy _).
Qed.

(** C1. Where the code departs from the claim: a photo (and a document)
    handled eleven minutes after [last_seen] is stored, yet [last_seen]
    stays at its old value instead of moving to the time of handling; the
    question that follows one second later is then taken for the first
    message after an idle period, the session is reset and the prompt goes
    out without the image. *)
Theorem attachment_leaves_last_seen_stale :
  store_after (handle_photo_message (calm_env (minutes 11)) alice photo_5MB)
    {[ 7 := session_seen_at_0 ]} !! 7
  = Some {| history := [user_turn "hello"; assistant_turn "Hi!"];
            last_seen := 0; pdf_text := None; image_data := Some "QUJD" |} /\
  store_after (handle_document_message (calm_env (minutes 11)) alice pdf_1MB)
    {[ 7 := session_seen_at_0 ]} !! 7
  = Some {| history := [user_turn "hello"; assistant_turn "Hi!"];
            last_seen := 0; pdf_text := Some "abcd"; image_data := None |} /\
  prompts
    (sent_by (handle_text_message (calm_env (minutes 11 + 1000000)) alice "what is this?")
       (store_after (handle_photo_message (calm_env (minutes 11)) alice photo_5MB)
          {[ 7 := session_seen_at_0 ]}))
  = [[system_prompt; user_turn "what is this?"]].
Proof.
  split; [|split].
  - rewrite store_after_photo. vm_compute. reflexivity.
  - rewrite store_after_document. vm_compute. reflexivity.
  - rewrite prompts_text, store_after_photo. vm_compute. reflexivity.
Qed.

(** ** History of a text turn *)

Lemma history_turn_session env u ctx :
  history (turn_session env u ctx) = turn_history env u ctx.
Proof.
  unfold turn_session, turn_history.
  destruct (ctx !! id u) as [s|]; [destruct (idle env s)|]; reflexivity.
Qed.

Lemma history_after_assembly s : history (after_assembly s) = history s.
Proof. unfold after_assembly. by destruct (truthy _). Qed.



(** ** Invariants of the store *)

Lemma images_in_app l1 l2 : images_in (l1 ++ l2) = images_in l1 ++ images_in l2.
Proof. apply flat_map_app. Qed.

Lemma well_formed_fresh t : well_formed (fresh_session t).
Proof. split; [by left | reflexivity]. Qed.

Lemma well_formed_set_last_seen t s : well_formed s -> well_formed (set_last_seen t s).
Proof. by intros [He Hp]. Qed.

Lemma well_formed_after_assembly s : well_formed s -> well_formed (after_assembly s).
Proof.
  intros [He Hp]. unfold after_assembly.
  destruct (truthy _); [|done]. split; [by right | done].
Qed.

Lemma well_formed_history_append text r s :
  well_formed s ->
  well_formed (history_append {| msg_role := r; msg_content := plain text |} s).
Proof.
  intros [He Hp]. split; [done|].
  unfold plain_history in *; cbn. by rewrite images_in_app, Hp.
Qed.

Lemma well_formed_turn_session env u ctx :
  map_Forall (fun _ => well_formed) ctx -> well_formed (turn_session env u ctx).
Proof.
  intros Hctx. unfold turn_session.
  destruct (ctx !! id u) as [s|] eqn:Hs.
  - destruct (idle env s).
    + apply well_formed_set_last_seen, well_formed_fresh.
    + apply well_formed_set_last_seen, (Hctx _ _ Hs).
  - apply well_formed_set_last_seen, well_formed_fresh.
Qed.

Lemma well_formed_turn_result env text s :
  well_formed s -> well_formed (turn_result env text s).
Proof.
  intros Hs. unfold turn_result.
  destruct (streamed env _).
  - by apply well_formed_after_assembly.
  - by do 2 apply well_formed_history_append; apply well_formed_after_assembly.
Qed.

Lemma well_formed_ingest_session env u ctx :
  map_Forall (fun _ => well_formed) ctx -> well_formed (ingest_session env u ctx).
Proof.
  intros Hctx. unfold ingest_session.
  destruct (ctx !! id u) as [s|] eqn:Hs; cbn.
  - apply (Hctx _ _ Hs).
  - apply well_formed_fresh.
Qed.

Lemma dispatch_preserves_well_formed env upd ctx :
  map_Forall (fun _ => well_formed) ctx ->
  map_Forall (fun _ => well_formed) (store_after (dispatch env upd) ctx).
Proof.
  intros Hctx. unfold dispatch.
  destruct (update_payload upd) as [name|body|document|photo|mime| |inner|inner].
  5-8: by repeat case_match; first [done | left | constructor].
  - destruct (String.eqb (lower name) "start").
    { rewrite store_after_start.
      apply map_Forall_insert_2; [apply well_formed_fresh | done]. }
    destruct (String.eqb (lower name) "help"); [done|].
    destruct (String.eqb (lower name) "reset"); [|done].
    rewrite store_after_reset.
    destruct (ctx !! id (from_user upd)); [|done].
    apply map_Forall_insert_2; [apply well_formed_fresh | done].
  - rewrite store_after_text.
    apply map_Forall_insert_2; [|done].
    by apply well_formed_turn_result, well_formed_turn_session.
  - destruct (String.eqb _ _); [|done].
    rewrite store_after_document.
    destruct (negb _); [done|]. destruct (_ >? _); [done|].
    destruct (fetch_pdf_pages env); [done|].
    apply map_Forall_insert_2; [|done].
    destruct (well_formed_ingest_session env (from_user upd) ctx Hctx) as [_ Hp].
    split; [by right | done].
  - rewrite store_after_photo.
    destruct (_ >? _); [done|].
    destruct (fetch_image_base64 env); [done|].
    apply map_Forall_insert_2; [|done].
    destruct (well_formed_ingest_session env (from_user upd) ctx Hctx) as [_ Hp].
    split; [by left | done].
Qed.

Lemma run_updates_preserves_well_formed evs :
  forall ctx,
    map_Forall (fun _ => well_formed) ctx ->
    map_Forall (fun _ => well_formed) (run_updates evs ctx).
Proof.
  induction evs as [|[env upd] rest IH]; intros ctx Hctx; cbn; [done|].
  by apply IH, dispatch_preserves_well_formed.
Qed.

Lemma reachable_well_formed evs user_id s :
  run_updates evs ∅ !! user_id = Some s -> well_formed s.
Proof.
  apply (run_updates_preserves_well_formed evs ∅). apply map_Forall_empty.
Qed.

(** C3. After any sequence of updates, started on the empty store, no
    session holds a document text and an image payload together.  A
    document handler that changes the store at all leaves the sender with
    the extracted text and no image payload; a photo handler that changes
    the store at all leaves the sender with the image payload and no
    document text. *)
Theorem pending_attachment_exclusive (evs : list (Env * Update)) (env : Env)
    (u : User) (document : Document) (photo : PhotoSize) (ctx : gmap Z session) :
  (forall user_id s,
     run_updates evs ∅ !! user_id = Some s ->
     pdf_text s = None \/ image_data s = None) /\
  (store_after (handle_document_message env u document) ctx = ctx \/
   exists s' pages,
     fetch_pdf_pages env = inr pages /\
     store_after (handle_document_message env u document) ctx !! id u = Some s' /\
     pdf_text s' = Some (pdf_text_of pages) /\ image_data s' = None) /\
  (store_after (handle_photo_message env u photo) ctx = ctx \/
   exists s' image_base64,
     fetch_image_base64 env = inr image_base64 /\
     store_after (handle_photo_message env u photo) ctx !! id u = Some s' /\
     image_data s' = Some image_base64 /\ pdf_text s' = None).
Proof.
  split; [|split].
  - intros user_id s Hs. apply (reachable_well_formed evs user_id s Hs).
  - rewrite store_after_document.
    destruct (negb _); [by left|]. destruct (_ >? _); [by left|].
    destruct (fetch_pdf_pages env) as [e|pages]; [by left|].
    right. eexists _, pages. by rewrite lookup_insert_eq.
  - rewrite store_after_photo.
    destruct (_ >? _); [by left|].
    destruct (fetch_image_base64 env) as [e|b]; [by left|].
    right. eexists _, b. by rewrite lookup_insert_eq.
Qed.

(** ** Document context *)

Lemma substring_prefix_length (n : nat) :
  forall s, (n <= String.length s)%nat -> String.length (substring 0 n s) = n.
Proof.
  induction n as [|n IH]; intros s Hn.
  - by destruct s.
  - destruct s as [|c s]; cbn in Hn; [lia|].
    change (substring 0 (S n) (String c s)) with (String c (substring 0 n s)).
    cbn. f_equal. apply IH. lia.
Qed.

Lemma substring_prefix_split (n : nat) :
  forall s, exists rest, s = substring 0 n s +:+ rest.
Proof.
  induction n as [|n IH]; intros s.
  - exists s. by destruct s.
  - destruct s as [|c s]; [by exists ""|].
    destruct (IH s) as [rest Hrest]. exists rest.
    change (String c s = String c (substring 0 n s +:+ rest)).
    by f_equal.
Qed.

Lemma prompt_for_document s text c txt :
  truthy (image_data s) = false ->
  pdf_text s = Some (String c txt) ->
  prompt_for s text
  = [system_prompt] ++ history s
      ++ [pdf_context_message (String c txt); user_turn text].
Proof.
  intros Himg Hpdf. unfold prompt_for. rewrite Hpdf.
  by destruct (image_data s) as [[|c' img]|].
Qed.

Lemma turn_result_keeps_document env text s :
  truthy (image_data s) = false ->
  pdf_text (turn_result env text s) = pdf_text s /\
  image_data (turn_result env text s) = image_data s.
Proof.
  intros Himg. unfold turn_result, after_assembly. rewrite Himg.
  by destruct (streamed env _).
Qed.

(** C7. A session holds a document text of more than 4000 characters and
    no image.  For any run of text messages none of which meets the idle
    reset, every prompt ends with the system message made of the fixed
    prefix and the first 4000 characters of the text, nothing after them,
    followed by the user's new text; and the document text is still in the
    session afterwards. *)
Theorem document_context_persists (u : User) (txt : string)
    (turns : list (Env * string)) (ctx : gmap Z session) (s : session) :
  ctx !! id u = Some s ->
  pdf_text s = Some txt ->
  image_data s = None ->
  (4000 < String.length txt)%nat ->
  within_timeout u turns ctx = true ->
  (String.length (substring 0 4000 txt) = 4000%nat /\
   exists rest, txt = substring 0 4000 txt +:+ rest) /\
  Forall2
    (fun turn messages =>
       exists earlier,
         messages = [system_prompt] ++ earlier
                      ++ [pdf_context_message txt; user_turn (snd turn)])
    turns (text_prompts u turns ctx) /\
  exists s',
    after_texts u turns ctx !! id u = Some s' /\
    pdf_text s' = Some txt /\ image_data s' = None.
Proof.
  intros Hs Hpdf Himg Hlen Hturns.
  split.
  { split; [apply substring_prefix_length; lia | apply substring_prefix_split]. }
  revert ctx s Hs Hpdf Himg Hturns.
  induction turns as [|[env text] rest IH]; intros ctx s Hs Hpdf Himg Hturns.
  - split; [constructor|]. by exists s.
  - cbn in Hturns. rewrite Hs in Hturns.
    apply andb_true_iff in Hturns as [Hidle Hrest].
    apply negb_true_iff in Hidle.
    assert (Hts : turn_session env u ctx = set_last_seen (clock env 1%nat) s)
      by by apply turn_session_active.
    destruct txt as [|c txt]; [cbn in Hlen; lia|].
    destruct (turn_result_keeps_document env text (set_last_seen (clock env 1%nat) s))
      as [Hpdf' Himg']; [by cbn; rewrite Himg|].
    destruct (IH (store_after (handle_text_message env u text) ctx)
                (turn_result env text (set_last_seen (clock env 1%nat) s)))
      as [Hprompts Hafter].
    { by rewrite store_after_text, Hts, lookup_insert_eq. }
    { by rewrite Hpdf'. }
    { by rewrite Himg'. }
    { done. }
    split; [|done].
    cbn [text_prompts after_texts]. rewrite prompts_text, Hts.
    constructor; [|done].
    exists (history s).
    rewrite (prompt_for_document _ _ c txt); [done | by cbn; rewrite Himg | done].
Qed.

Lemma document_context_twice :
  (String.length (substring 0 4000 abc_6000) = 4000%nat /\
   exists rest, abc_6000 = substring 0 4000 abc_6000 +:+ rest) /\
  Forall2
    (fun turn messages =>
       exists earlier,
         messages = [system_prompt] ++ earlier
                      ++ [pdf_context_message abc_6000; user_turn (snd turn)])
    two_questions (text_prompts alice two_questions {[ 7 := session_with_pdf ]}) /\
  exists s',
    after_texts alice two_questions {[ 7 := session_with_pdf ]} !! 7 = Some s' /\
    pdf_text s' = Some abc_6000 /\ image_data s' = None.
Proof.
  apply (document_context_persists alice abc_6000 two_questions
           {[ 7 := session_with_pdf ]} session_with_pdf).
  - reflexivity.
  - reflexivity.
  - reflexivity.
  - apply Nat.ltb_lt. vm_compute. reflexivity.
  - vm_compute. reflexivity.
Defined.

(** ** Image context *)

Lemma prompt_for_image s text c img :
  image_data s = Some (String c img) ->
  prompt_for s text
  = [system_prompt] ++ history s ++ [image_message text (String c img)].
Proof. intros Himg. unfold prompt_for. by rewrite Himg. Qed.

Lemma prompt_for_without_image s text :
  truthy (image_data s) = false ->
  (exists earlier, prompt_for s text = earlier ++ [user_turn text]) /\
  images_in (prompt_for s text) = images_in (history s).
Proof.
  intros Himg. unfold prompt_for.
  destruct (image_data s) as [[|c img]|]; [|done| ];
    destruct (pdf_text s) as [[|c' txt]|].
  all: split;
    [ first [ by exists ([system_prompt] ++ history s)
            | by eexists ([system_prompt] ++ history s ++ [_]);
              rewrite <- !app_assoc ]
    | rewrite !images_in_app; cbn; by rewrite app_nil_r ].
Qed.

Lemma truthy_after_assembly s : truthy (image_data (after_assembly s)) = false.
Proof.
  unfold after_assembly. by destruct (truthy (image_data s)) eqn:Himg.
Qed.

Lemma image_data_turn_result env text s :
  image_data (turn_result env text s) = image_data (after_assembly s) /\
  pdf_text (turn_result env text s) = pdf_text s /\
  last_seen (turn_result env text s) = last_seen s.
Proof.
  unfold turn_result, after_assembly.
  destruct (streamed env _); by destruct (truthy (image_data s)).
Qed.

(** After a text turn the sender has no image pending, so the prompt of
    the text message that follows ends with the plain user entry, and
    carries no image when the history carries none. *)
Lemma next_prompt_without_image env u text ctx env2 text2 :
  exists messages,
    prompts (sent_by (handle_text_message env2 u text2)
               (store_after (handle_text_message env u text) ctx)) = [messages] /\
    (exists earlier, messages = earlier ++ [user_turn text2]) /\
    (map_Forall (fun _ => well_formed) ctx -> images_in messages = []).
Proof.
  eexists; split; [apply prompts_text|].
  set (ctx1 := store_after (handle_text_message env u text) ctx).
  assert (Himg : truthy (image_data (turn_session env2 u ctx1)) = false).
  { unfold turn_session, ctx1. rewrite store_after_text, lookup_insert_eq.
    destruct (idle env2 _); [done|]. cbn [image_data set_last_seen].
    destruct (image_data_turn_result env text (turn_session env u ctx)) as [-> _].
    apply truthy_after_assembly. }
  destruct (prompt_for_without_image _ text2 Himg) as [Hlast Himages].
  split; [done|]. intros Hctx. rewrite Himages.
  apply (well_formed_turn_session env2 u ctx1).
  unfold ctx1. rewrite store_after_text.
  apply map_Forall_insert_2; [|done].
  by apply well_formed_turn_result, well_formed_turn_session.
Qed.

(** C8, as the code has it. In a store reached from the empty one, a
    session holds a non-empty image payload.  A text message that arrives
    no more than 10 minutes after [last_seen] submits the history followed
    by one user message made of the text and the image, the only image of
    the prompt; afterwards nothing is pending, and the text message after
    that submits a prompt without any image. *)
Theorem pending_image_used_once (evs : list (Env * Update)) (env env2 : Env)
    (u : User) (text text2 : string) (s : session) (img : string) :
  run_updates evs ∅ !! id u = Some s ->
  image_data s = Some img ->
  img <> "" ->
  clock env 0%nat - last_seen s <= timedelta_minutes CONTEXT_TIMEOUT_MINUTES ->
  (exists messages,
     prompts (sent_by (handle_text_message env u text) (run_updates evs ∅))
     = [messages] /\
     messages = [system_prompt] ++ history s ++ [image_message text img] /\
     images_in messages = [image_prefix +:+ img]) /\
  (exists s1,
     store_after (handle_text_message env u text) (run_updates evs ∅) !! id u
     = Some s1 /\
     image_data s1 = None /\ pdf_text s1 = None) /\
  (exists messages2,
     prompts (sent_by (handle_text_message env2 u text2)
                (store_after (handle_text_message env u text) (run_updates evs ∅)))
     = [messages2] /\
     images_in messages2 = []).
Proof.
  intros Hs Himg Hne Hfresh.
  destruct (reachable_well_formed evs (id u) s Hs) as [Hexcl Hplain].
  apply idle_false_iff in Hfresh.
  pose proof (turn_session_active env u _ s Hs Hfresh) as Hts.
  destruct img as [|c img]; [done|].
  split; [|split].
  - eexists; split; [apply prompts_text|]. rewrite Hts.
    rewrite (prompt_for_image _ _ c img) by done. split; [done|].
    cbn [history set_last_seen]. rewrite !images_in_app.
    unfold plain_history in Hplain. by rewrite Hplain.
  - rewrite store_after_text, lookup_insert_eq, Hts. eexists; split; [done|].
    destruct (image_data_turn_result env text (set_last_seen (clock env 1%nat) s))
      as (-> & -> & _).
    unfold after_assembly; cbn. rewrite Himg; cbn.
    split; [done|]. destruct Hexcl as [Hpdf|Hnone]; [done | congruence].
  - destruct (next_prompt_without_image env u text (run_updates evs ∅) env2 text2)
      as (messages2 & Hp & _ & Himages).
    exists messages2. split; [done|]. apply Himages.
    apply run_updates_preserves_well_formed, map_Forall_empty.
Qed.

Lemma image_then_question :
  (exists messages,
     prompts (sent_by (handle_text_message (calm_env (minutes 1)) alice "what is this?")
                (run_updates photo_from_alice ∅))
     = [messages] /\
     messages = [system_prompt] ++ history photo_session
                  ++ [image_message "what is this?" "QUJD"] /\
     images_in messages = [image_prefix +:+ "QUJD"]) /\
  (exists s1,
     store_after (handle_text_message (calm_env (minutes 1)) alice "what is this?")
       (run_updates photo_from_alice ∅) !! id alice
     = Some s1 /\
     image_data s1 = None /\ pdf_text s1 = None) /\
  (exists messages2,
     prompts (sent_by (handle_text_message (calm_env (minutes 2)) alice "thanks")
                (store_after
                   (handle_text_message (calm_env (minutes 1)) alice "what is this?")
                   (run_updates photo_from_alice ∅)))
     = [messages2] /\
     images_in messages2 = []).
Proof.
  apply (pending_image_used_once photo_from_alice (calm_env (minutes 1))
           (calm_env (minutes 2)) alice "what is this?" "thanks" photo_session "QUJD").
  - vm_compute. reflexivity.
  - reflexivity.
  - discriminate.
  - vm_compute. discriminate.
Defined.

(** C8, counterexample. The photo is accepted at time 0 and the question
    comes eleven minutes later: the idle reset discards the image and the
    prompt is the system instruction and the text alone. *)
Lemma late_question_loses_image :
  run_updates photo_from_alice ∅ !! 7 = Some photo_session /\
  prompts (sent_by (handle_text_message (calm_env (minutes 11)) alice "what is this?")
             (run_updates photo_from_alice ∅))
  = [[system_prompt; user_turn "what is this?"]] /\
  images_in [system_prompt; user_turn "what is this?"] = [].
Proof. repeat split; vm_compute; reflexivity. Qed.

(** ** Failed turns *)

(** C9, as the code has it. When a text turn is interrupted at submission
    or while streaming, a non-empty image payload that was pending is gone,
    idle reset or not: whatever happens next, the following text message
    ends its prompt with the plain user entry.  When the message arrives no
    more than 10 minutes after [last_seen], the failed turn leaves the
    history and the document text of the session as they were. *)
Theorem failed_turn_loses_image_keeps_document (env : Env) (u : User)
    (text : string) (ctx : gmap Z session) (s : session) (e : string) :
  ctx !! id u = Some s ->
  turn_raises env u text ctx e ->
  exists s',
    store_after (handle_text_message env u text) ctx !! id u = Some s' /\
    (forall img, image_data s = Some img -> img <> "" -> image_data s' = None) /\
    (forall env2 text2,
       exists earlier,
         prompts (sent_by (handle_text_message env2 u text2)
                    (store_after (handle_text_message env u text) ctx))
         = [earlier ++ [user_turn text2]]) /\
    (clock env 0%nat - last_seen s <= timedelta_minutes CONTEXT_TIMEOUT_MINUTES ->
     history s' = history s /\
     pdf_text s' = pdf_text s /\
     (truthy (image_data s) = false -> image_data s' = image_data s)).
Proof.
  intros Hs (messages & Hprompt & Hraise).
  rewrite prompts_text in Hprompt. injection Hprompt as <-.
  exists (after_assembly (turn_session env u ctx)).
  split.
  { rewrite store_after_text, lookup_insert_eq.
    unfold turn_result. by rewrite Hraise. }
  split.
  { intros [|c img] Himg Hne; [done|].
    unfold turn_session. rewrite Hs.
    destruct (idle env s); [done|].
    unfold after_assembly; cbn [image_data set_last_seen]. by rewrite Himg. }
  split.
  { intros env2 text2.
    destruct (next_prompt_without_image env u text ctx env2 text2)
      as (messages2 & Hp & [earlier ->] & _).
    by exists earlier. }
  intros Hfresh. apply idle_false_iff in Hfresh.
  rewrite (turn_session_active env u _ s Hs Hfresh).
  split; [by rewrite history_after_assembly|].
  unfold after_assembly; cbn [image_data set_last_seen].
  split; [by destruct (truthy (image_data s))|].
  by intros ->.
Qed.

Lemma failed_question_about_image :
  exists s',
    store_after (handle_text_message (failing_env (minutes 1)) alice "what is this?")
      {[ 7 := photo_session ]} !! id alice = Some s' /\
    (forall img,
       image_data photo_session = Some img -> img <> "" -> image_data s' = None) /\
    (forall env2 text2,
       exists earlier,
         prompts (sent_by (handle_text_message env2 alice text2)
                    (store_after
                       (handle_text_message (failing_env (minutes 1)) alice "what is this?")
                       {[ 7 := photo_session ]}))
         = [earlier ++ [user_turn text2]]) /\
    (clock (failing_env (minutes 1)) 0%nat - last_seen photo_session
     <= timedelta_minutes CONTEXT_TIMEOUT_MINUTES ->
     history s' = history photo_session /\
     pdf_text s' = pdf_text photo_session /\
     (truthy (image_data photo_session) = false ->
      image_data s' = image_data photo_session)).
Proof.
  apply (failed_turn_loses_image_keeps_document (failing_env (minutes 1)) alice
           "what is this?" {[ 7 := photo_session ]} photo_session "APIConnectionError").
  - reflexivity.
  - exists [system_prompt; image_message "what is this?" "QUJD"].
    split; vm_compute; reflexivity.
Defined.

(** The image is lost on an idle failing turn too. *)
Lemma idle_failed_turn_loses_image :
  turn_raises (failing_env (minutes 11)) alice "what is this?"
    {[ 7 := photo_session ]} "APIConnectionError" /\
  store_after (handle_text_message (failing_env (minutes 11)) alice "what is this?")
    {[ 7 := photo_session ]} !! 7
  = Some {| history := []; last_seen := minutes 11;
            pdf_text := None; image_data := None |}.
Proof.
  split.
  - exists [system_prompt; user_turn "what is this?"].
    split; vm_compute; reflexivity.
  - vm_compute. reflexivity.
Qed.

(** C9, counterexample. Eleven minutes after [last_seen] a turn whose
    completion request raises leaves neither the document text nor the
    history the session had. *)
Lemma idle_failed_turn_loses_document :
  pdf_text stale_session = Some "abcd" /\
  history stale_session = [user_turn "hello"; assistant_turn "Hi!"] /\
  turn_raises (failing_env (minutes 11)) alice "still there?"
    {[ 7 := stale_session ]} "APIConnectionError" /\
  store_after (handle_text_message (failing_env (minutes 11)) alice "still there?")
    {[ 7 := stale_session ]} !! 7
  = Some {| history := []; last_seen := minutes 11;
            pdf_text := None; image_data := None |}.
Proof.
  split; [reflexivity|]. split; [reflexivity|]. split.
  - exists [system_prompt; user_turn "still there?"].
    split; vm_compute; reflexivity.
  - vm_compute. reflexivity.
Qed.

(** ** The streamed reply *)

Lemma append_empty_r (s : string) : s +:+ "" = s.
Proof.
  induction s as [|c s IH]; [done|].
  change (String c (s +:+ "") = String c s). by f_equal.
Qed.

Lemma stream_loop_full env mid response :
  forall acc full,
    fst (stream_loop env mid response acc st0) = inr full ->
    full = fold_left (fun a item => a +:+ delta_text item) response acc.
Proof.
  induction response as [|item rest IH]; intros acc full; cbn.
  - by intros [= ->].
  - destruct item as [[|[[|c s]|] choices]|e]; cbn; try done.
    + intros Hfull. rewrite append_empty_r. by apply IH.
    + destruct (send_edit env _) as [e|]; [done|].
      unfold mbind, M_bind, emit, st0; cbn.
      rewrite stream_loop_frame; cbn. apply IH.
    + intros Hfull. rewrite append_empty_r. by apply IH.
Qed.

(** When a turn completes, the reply recorded in the history is the
    concatenation of the deltas of the whole stream. *)
Lemma streamed_full_reply env messages response full :
  api_create env messages = inr response ->
  streamed env messages = inr full ->
  full = fold_left (fun a item => a +:+ delta_text item) response "".
Proof.
  unfold streamed, stream_reply, mbind, M_bind, emit, st0; cbn.
  intros ->. unfold mret, M_ret; cbn.
  destruct (send_placeholder env) as [e|mid]; [done|]; cbn.
  rewrite stream_loop_frame; cbn. apply stream_loop_full.
Qed.

(** * Further properties of the handlers *)

(** ** Dispatch as a whole *)

Lemma store_after_dispatch_cases env upd ctx :
  store_after (dispatch env upd) ctx = ctx \/
  exists s', store_after (dispatch env upd) ctx = <[id (from_user upd) := s']> ctx.
Proof.
  unfold dispatch.
  destruct (update_payload upd) as [name|body|document|photo|mime| |inner|inner].
  5-8: by repeat case_match; first [done | left | constructor].
  - destruct (String.eqb (lower name) "start"); [right; by eexists|].
    destruct (String.eqb (lower name) "help"); [by left|].
    destruct (String.eqb (lower name) "reset"); [|by left].
    rewrite store_after_reset.
    destruct (ctx !! id (from_user upd)); [right; by eexists | by left].
  - right. rewrite store_after_text. by eexists.
  - destruct (String.eqb _ _); [|by left].
    rewrite store_after_document.
    destruct (negb _); [by left|]. destruct (_ >? _); [by left|].
    destruct (fetch_pdf_pages env); [by left | right; by eexists].
  - rewrite store_after_photo.
    destruct (_ >? _); [by left|].
    destruct (fetch_image_base64 env); [by left | right; by eexists].
Qed.

(** X1. Whatever the update and the environment, handling it leaves the
    session of every user other than the sender exactly as it was. *)
Theorem dispatch_touches_sender_only (env : Env) (upd : Update)
    (ctx : gmap Z session) (other : Z) :
  other <> id (from_user upd) ->
  store_after (dispatch env upd) ctx !! other = ctx !! other.
Proof.
  intros Hother.
  destruct (store_after_dispatch_cases env upd ctx) as [-> | [s' ->]]; [done|].
  by rewrite lookup_insert_ne.
Qed.

Lemma bob_untouched_by_alice :
  store_after
    (dispatch (calm_env (minutes 11))
       {| from_user := alice; update_payload := Text "still there?" |})
    {[ 7 := stale_session; 8 := photo_session ]} !! 8
  = ({[ 7 := stale_session; 8 := photo_session ]} : gmap Z session) !! 8.
Proof.
  apply (dispatch_touches_sender_only (calm_env (minutes 11))
           {| from_user := alice; update_payload := Text "still there?" |}
           {[ 7 := stale_session; 8 := photo_session ]} 8).
  vm_compute. discriminate.
Defined.

(** X2. An exception leaves a handler in two situations only: the update
    has no [update.message] (an edited message or a channel post that a
    registered filter lets through), or an attachment comes without its
    [file_size].  It then leaves before anything is sent or stored.  For
    every other update nothing escapes: every failure of the completion
    API, of the stream, of the download, of the decoding and of the
    Telegram calls inside a [try] block is caught, and no lookup in
    [user_context] misses its key. *)
Theorem exceptions_escape_before_any_effect (env : Env) (upd : Update)
    (ctx : gmap Z session) :
  (if escapes upd
   then exists e, fst (run (dispatch env upd) ctx) = inl e
   else fst (run (dispatch env upd) ctx) = inr tt) /\
  (escapes upd = true ->
   store_after (dispatch env upd) ctx = ctx /\
   sent_by (dispatch env upd) ctx = []).
Proof.
  unfold escapes, dispatch.
  destruct (update_payload upd) as [name|body|document|photo|mime| |inner|inner].
  5: destruct (String.eqb mime _); (split; [first [done | by eexists] | done]).
  5: split; [by eexists | done].
  5: destruct (_ || _); (split; [first [done | by eexists] | done]).
  5: destruct (has_message_handler _); (split; [first [done | by eexists] | done]).
  - split; [|done].
    destruct (String.eqb (lower name) "start"); [done|].
    destruct (String.eqb (lower name) "help"); [done|].
    destruct (String.eqb (lower name) "reset"); [|done].
    unfold run. by rewrite reset_command_run.
  - split; [|done]. by rewrite handle_text_message_run.
  - split; [|done]. destruct (String.eqb _ _); [|done].
    by rewrite handle_document_message_run.
  - split; [|done]. by rewrite handle_photo_message_run.
Qed.

(** ** The relay of the stream *)

Lemma last_cons_default {A} (l : list A) :
  forall x d, List.last (x :: l) d = List.last l x.
Proof.
  induction l as [|y l IH]; intros x d; [done|].
  change (List.last (y :: l) d = List.last (y :: l) x). by rewrite !IH.
Qed.

Lemma stream_loop_edits env mid response :
  forall acc,
    exists texts,
      outbox (snd (stream_loop env mid response acc st0))
      = map (edit_message_text mid) texts /\
      growing acc texts /\
      forall full,
        fst (stream_loop env mid response acc st0) = inr full ->
        full = List.last texts acc.
Proof.
  induction response as [|item rest IH]; intros acc; cbn.
  - exists []. repeat split; [constructor | by intros full [= ->]].
  - destruct item as [[|[[|c s]|] choices]|e]; cbn.
    + exists []. repeat split; [constructor | done].
    + apply IH.
    + destruct (send_edit env _) as [e|].
      * exists []. repeat split; [constructor | done].
      * unfold mbind, M_bind, emit, st0; cbn.
        rewrite stream_loop_frame; cbn.
        destruct (IH (acc +:+ String c s)) as (texts & Hout & Hgrow & Hfull).
        exists ((acc +:+ String c s) :: texts). rewrite Hout.
        split; [done|]. split; [by constructor|].
        intros full Hf. by rewrite (Hfull full Hf), last_cons_default.
    + apply IH.
    + exists []. repeat split; [constructor | done].
Qed.

(** X3. What a text turn shows the user while streaming.  The request is
    sent first; if it is accepted and the placeholder goes out, every later
    operation is an edit of that one placeholder message, each edit
    extends the text of the one before by a non-empty piece, and when the
    stream completes the last text shown is the reply recorded in the
    history (the placeholder stays when the reply is empty). *)
Theorem stream_edits_grow_to_reply (env : Env) (messages : list message) :
  stream_effects env messages = [completions_create "gpt-4o-mini" messages] \/
  exists mid texts,
    send_placeholder env = inr mid /\
    stream_effects env messages
    = completions_create "gpt-4o-mini" messages
        :: reply_text "..." :: map (edit_message_text mid) texts /\
    growing "" texts /\
    forall full, streamed env messages = inr full -> full = List.last texts "".
Proof.
  unfold streamed, stream_effects, stream_reply, mbind, M_bind, emit, st0; cbn.
  destruct (api_create env messages) as [e|response]; [by left|].
  unfold mret, M_ret; cbn.
  destruct (send_placeholder env) as [e|mid]; [by left|]; cbn.
  right. rewrite stream_loop_frame; cbn.
  destruct (stream_loop_edits env mid response "") as (texts & Hout & Hgrow & Hfull).
  exists mid, texts. by rewrite Hout.
Qed.

Lemma growing_nonempty acc texts :
  growing acc texts -> Forall (fun t => t <> "") texts.
Proof.
  induction 1 as [|acc c piece rest _ IH]; constructor; [|done].
  by destruct acc.
Qed.

Lemma stream_effects_relay env messages :
  Forall relay_effect (stream_effects env messages) /\
  Forall carries_text (stream_effects env messages).
Proof.
  unfold stream_effects, stream_reply, mbind, M_bind, emit, st0; cbn.
  destruct (api_create env messages) as [e|response];
    [split; by repeat constructor|].
  unfold mret, M_ret; cbn.
  destruct (send_placeholder env) as [e|mid]; [split; by repeat constructor|]; cbn.
  rewrite stream_loop_frame; cbn.
  destruct (stream_loop_edits env mid response "") as (texts & -> & Hgrow & _).
  apply growing_nonempty in Hgrow.
  split; repeat (constructor; [done|]).
  - by apply Forall_map, Forall_true.
  - apply Forall_map. by eapply Forall_impl.
Qed.

(** ** The prompt and the history *)

Lemma prompt_for_shape s text :
  exists context,
    prompt_for s text = [system_prompt] ++ history s ++ context /\
    (context = [user_turn text] \/
     (exists txt, pdf_text s = Some txt /\
                  context = [pdf_context_message txt; user_turn text]) \/
     (exists img, image_data s = Some img /\ truthy (image_data s) = true /\
                  context = [image_message text img])).
Proof.
  unfold prompt_for.
  destruct (image_data s) as [[|c img]|] eqn:Himg;
    [|eexists; split; [done|]; right; right; by eexists| ];
    destruct (pdf_text s) as [[|c' txt]|]; eexists; (split; [done|]);
    first [ by left | right; left; by eexists ].
Qed.

(** X4. A text message submits exactly one request.  It starts with the
    fixed system instruction, goes on with the whole history the turn
    starts from, entry by entry and without any trimming, and ends with the
    new user message, preceded by the document context when a document is
    pending, or made of text and image when an image is. *)
Theorem prompt_carries_whole_history (env : Env) (u : User) (text : string)
    (ctx : gmap Z session) :
  exists context,
    prompts (sent_by (handle_text_message env u text) ctx)
    = [[system_prompt] ++ turn_history env u ctx ++ context] /\
    (context = [user_turn text] \/
     (exists txt, context = [pdf_context_message txt; user_turn text]) \/
     (exists img, context = [image_message text img])).
Proof.
  rewrite prompts_text.
  destruct (prompt_for_shape (turn_session env u ctx) text) as (context & -> & Hc).
  exists context. rewrite history_turn_session. split; [done|].
  destruct Hc as [->|[(txt & _ & ->)|(img & _ & _ & ->)]]; eauto.
Qed.

Lemma translation_values lang :
  get_translation lang "welcome"
  = "Welcome! I'm an AI assistant. I can help you with text, images, and PDFs. How can I assist you?" /\
  get_translation lang "reset" = "Our conversation history has been cleared." /\
  get_translation lang "pdf_received"
  = "Thank you for the PDF. I'm processing it now. Please ask me a question about its content." /\
  get_translation lang "pdf_too_large"
  = "The PDF file is too large. Please send a file smaller than 15.0 MB." /\
  get_translation lang "image_too_large"
  = "The image file is too large. Please send a file smaller than 10.0 MB." /\
  get_translation lang "unsupported_file" = "Sorry, I only support PDF and image files." /\
  get_translation lang "error_processing"
  = "Sorry, I encountered an error while processing your request. Please try again." /\
  get_translation lang "image_received"
  = "I've received your image. What would you like to know about it?".
Proof. rewrite !get_translation_en_table. repeat split; vm_compute; reflexivity. Qed.

Lemma relay_effect_not_notice env messages t :
  t <> "..." -> ~ In (reply_text t) (stream_effects env messages).
Proof.
  intros Ht Hin.
  destruct (stream_effects_relay env messages) as [Hrelay _].
  rewrite List.Forall_forall in Hrelay. by apply Hrelay in Hin.
Qed.

(** X5. The idle check is strict: a text message whose first clock
    reading is 10 minutes or less past [last_seen] sends no reset
    confirmation, submits a prompt made of the system instruction, the
    whole history of the session and the context of the new message, keeps
    the pending document text, and moves [last_seen] to the second clock
    reading. *)
Theorem no_reset_within_ten_minutes (env : Env) (u : User) (text : string)
    (ctx : gmap Z session) (s : session) :
  ctx !! id u = Some s ->
  clock env 0%nat - last_seen s <= timedelta_minutes CONTEXT_TIMEOUT_MINUTES ->
  ~ In (reply_text (get_translation (get_user_language u) "reset"))
       (sent_by (handle_text_message env u text) ctx) /\
  (exists context,
     prompts (sent_by (handle_text_message env u text) ctx)
     = [[system_prompt] ++ history s ++ context] /\
     (context = [user_turn text] \/
      (exists txt, pdf_text s = Some txt /\
                   context = [pdf_context_message txt; user_turn text]) \/
      (exists img, image_data s = Some img /\
                   context = [image_message text img]))) /\
  exists s',
    store_after (handle_text_message env u text) ctx !! id u = Some s' /\
    pdf_text s' = pdf_text s /\ last_seen s' = clock env 1%nat.
Proof.
  intros Hs Hfresh. apply idle_false_iff in Hfresh.
  pose proof (turn_session_active env u _ s Hs Hfresh) as Hts.
  destruct (translation_values (get_user_language u))
    as (_ & Hreset & _ & _ & _ & _ & Herr & _).
  split; [|split].
  - rewrite sent_by_text. unfold turn_preamble, turn_epilogue.
    rewrite Hs, Hfresh, Hreset, Herr. cbn [app].
    intros [Hin|Hin]; [done|].
    apply in_app_or in Hin as [Hin|Hin].
    + by apply relay_effect_not_notice in Hin.
    + destruct (streamed env _); [|done].
      destruct Hin as [Hin|[Hin|[]]]; done.
  - rewrite prompts_text, Hts.
    destruct (prompt_for_shape (set_last_seen (clock env 1%nat) s) text)
      as (context & -> & Hc).
    exists context. split; [done|]. cbn [pdf_text image_data set_last_seen] in Hc.
    destruct Hc as [->|[(txt & Htxt & ->)|(img & Himg & _ & ->)]]; eauto.
  - rewrite store_after_text, lookup_insert_eq, Hts. eexists; split; [done|].
    by destruct (image_data_turn_result env text (set_last_seen (clock env 1%nat) s))
      as (_ & -> & ->).
Qed.

Lemma no_reset_at_ten_minutes_sharp :
  ~ In (reply_text (get_translation (get_user_language alice) "reset"))
       (sent_by (handle_text_message (calm_env (minutes 10)) alice "still there?")
          {[ 7 := stale_session ]}) /\
  (exists context,
     prompts (sent_by (handle_text_message (calm_env (minutes 10)) alice "still there?")
                {[ 7 := stale_session ]})
     = [[system_prompt] ++ history stale_session ++ context] /\
     (context = [user_turn "still there?"] \/
      (exists txt, pdf_text stale_session = Some txt /\
                   context = [pdf_context_message txt; user_turn "still there?"]) \/
      (exists img, image_data stale_session = Some img /\
                   context = [image_message "still there?" img]))) /\
  exists s',
    store_after (handle_text_message (calm_env (minutes 10)) alice "still there?")
      {[ 7 := stale_session ]} !! id alice = Some s' /\
    pdf_text s' = pdf_text stale_session /\
    last_seen s' = clock (calm_env (minutes 10)) 1%nat.
Proof.
  apply (no_reset_within_ten_minutes (calm_env (minutes 10)) alice "still there?"
           {[ 7 := stale_session ]} stale_session).
  - reflexivity.
  - vm_compute. discriminate.
Defined.

(** X6. A text message from a user who has no session creates one: the
    prompt is the system instruction and the text alone, nothing is reset,
    and the new session carries the second clock reading, no attachment,
    and either the completed exchange or, after a failure, no history. *)
Theorem first_text_creates_session (env : Env) (u : User) (text : string)
    (ctx : gmap Z session) :
  ctx !! id u = None ->
  prompts (sent_by (handle_text_message env u text) ctx)
  = [[system_prompt; user_turn text]] /\
  exists s',
    store_after (handle_text_message env u text) ctx !! id u = Some s' /\
    last_seen s' = clock env 1%nat /\
    pdf_text s' = None /\ image_data s' = None /\
    history s' = match streamed env [system_prompt; user_turn text] with
                 | inr full_response => [user_turn text; assistant_turn full_response]
                 | inl _ => []
                 end.
Proof.
  intros Hs.
  assert (Hts : turn_session env u ctx
                = set_last_seen (clock env 1%nat) (fresh_session (clock env 0%nat)))
    by (unfold turn_session; by rewrite Hs).
  split; [by rewrite prompts_text, Hts|].
  rewrite store_after_text, lookup_insert_eq, Hts. eexists; split; [done|].
  unfold turn_result; cbn.
  by destruct (streamed env _).
Qed.

Lemma first_text_from_bob :
  prompts (sent_by (handle_text_message (calm_env (minutes 3)) bob "hi")
             {[ 7 := stale_session ]})
  = [[system_prompt; user_turn "hi"]] /\
  exists s',
    store_after (handle_text_message (calm_env (minutes 3)) bob "hi")
      {[ 7 := stale_session ]} !! id bob = Some s' /\
    last_seen s' = clock (calm_env (minutes 3)) 1%nat /\
    pdf_text s' = None /\ image_data s' = None /\
    history s' = match streamed (calm_env (minutes 3)) [system_prompt; user_turn "hi"] with
                 | inr full_response => [user_turn "hi"; assistant_turn full_response]
                 | inl _ => []
                 end.
Proof.
  apply (first_text_creates_session (calm_env (minutes 3)) bob "hi"
           {[ 7 := stale_session ]}).
  vm_compute. reflexivity.
Defined.

(** X7. The conversation is remembered: after a turn that completed, the
    next text message of the same user, unless it meets the idle reset,
    submits the history the first turn started from, then the first
    question and its full answer, then its own context, which ends with the
    new plain user entry. *)
Theorem next_prompt_recalls_exchange (env env2 : Env) (u : User)
    (text text2 : string) (ctx : gmap Z session) (full_response : string) :
  turn_completes env u text ctx full_response ->
  (forall s1,
     store_after (handle_text_message env u text) ctx !! id u = Some s1 ->
     clock env2 0%nat - last_seen s1 <= timedelta_minutes CONTEXT_TIMEOUT_MINUTES) ->
  exists earlier,
    prompts (sent_by (handle_text_message env2 u text2)
               (store_after (handle_text_message env u text) ctx))
    = [[system_prompt] ++ turn_history env u ctx
         ++ [user_turn text; assistant_turn full_response]
         ++ earlier ++ [user_turn text2]].
Proof.
  intros (messages & Hprompt & Hdone) Hfresh.
  rewrite prompts_text in Hprompt. injection Hprompt as <-.
  set (s1 := turn_result env text (turn_session env u ctx)).
  assert (Hs1 : store_after (handle_text_message env u text) ctx !! id u = Some s1)
    by by rewrite store_after_text, lookup_insert_eq.
  specialize (Hfresh s1 Hs1). apply idle_false_iff in Hfresh.
  rewrite prompts_text, (turn_session_active env2 u _ s1 Hs1 Hfresh).
  assert (Hhist : history s1
                  = turn_history env u ctx
                      ++ [user_turn text; assistant_turn full_response]).
  { unfold s1, turn_result. rewrite Hdone; cbn.
    by rewrite history_after_assembly, history_turn_session, <- app_assoc. }
  assert (Himg : truthy (image_data s1) = false).
  { unfold s1. destruct (image_data_turn_result env text (turn_session env u ctx))
      as [-> _]. apply truthy_after_assembly. }
  destruct (prompt_for_shape (set_last_seen (clock env2 1%nat) s1) text2)
    as (context & -> & Hc).
  cbn [history set_last_seen]. rewrite Hhist.
  destruct Hc as [->|[(txt & _ & ->)|(img & _ & Himg' & _)]].
  - exists []. by rewrite <- !app_assoc.
  - exists [pdf_context_message txt]. by rewrite <- !app_assoc.
  - cbn in Himg'. congruence.
Qed.

Lemma second_question_recalls_first :
  exists earlier,
    prompts (sent_by (handle_text_message (calm_env (minutes 2)) alice "and then?")
               (store_after (handle_text_message (calm_env (minutes 1)) alice "hi")
                  {[ 7 := session_seen_at_0 ]}))
    = [[system_prompt] ++ turn_history (calm_env (minutes 1)) alice {[ 7 := session_seen_at_0 ]}
         ++ [user_turn "hi"; assistant_turn "Hello"]
         ++ earlier ++ [user_turn "and then?"]].
Proof.
  apply (next_prompt_recalls_exchange (calm_env (minutes 1)) (calm_env (minutes 2))
           alice "hi" "and then?" {[ 7 := session_seen_at_0 ]} "Hello").
  - exists ([system_prompt] ++ history session_seen_at_0 ++ [user_turn "hi"]).
    split; vm_compute; reflexivity.
  - intros s1 Hs1. vm_compute in Hs1. injection Hs1 as <-.
    vm_compute. discriminate.
Defined.

(** ** Attachments accepted and refused *)

(** X8. A photo declared above 10 MB gets the too-large notice, a photo
    that cannot be downloaded gets the generic failure notice; in both
    cases the store, and with it any pending attachment, is exactly what it
    was. *)
Theorem rejected_photo_leaves_store (env : Env) (u : User) (photo : PhotoSize)
    (ctx : gmap Z session) (notices : list effect) :
  photo_rejected env u photo notices ->
  sent_by (handle_photo_message env u photo) ctx = notices /\
  store_after (handle_photo_message env u photo) ctx = ctx.
Proof.
  intros Hrej. unfold sent_by, store_after.
  rewrite handle_photo_message_run; cbn [snd].
  destruct Hrej as [Hsize | e Hsize Hfetch].
  - apply Z.gtb_gt in Hsize. by rewrite Hsize.
  - destruct (Z.gtb_spec (photo_file_size photo) MAX_IMAGE_SIZE); [lia|].
    by rewrite Hfetch.
Qed.

Lemma rejected_photo_11MB :
  sent_by (handle_photo_message (calm_env 1) alice photo_11MB) {[ 7 := session_with_pdf ]}
  = [reply_text "The image file is too large. Please send a file smaller than 10.0 MB."] /\
  store_after (handle_photo_message (calm_env 1) alice photo_11MB) {[ 7 := session_with_pdf ]}
  = {[ 7 := session_with_pdf ]}.
Proof.
  apply (rejected_photo_leaves_store (calm_env 1) alice photo_11MB
           {[ 7 := session_with_pdf ]}).
  apply photo_rejected_too_large. vm_compute. reflexivity.
Defined.

Lemma string_app_assoc (a b c : string) : (a +:+ b) +:+ c = a +:+ (b +:+ c).
Proof.
  induction a as [|x a IH]; [done|].
  change (String x ((a +:+ b) +:+ c) = String x (a +:+ (b +:+ c))). by f_equal.
Qed.

Lemma pdf_text_of_concat pages : pdf_text_of pages = String.concat "" pages.
Proof.
  unfold pdf_text_of.
  assert (H : forall acc,
             fold_left (fun a page => a +:+ page) pages acc
             = acc +:+ String.concat "" pages).
  { induction pages as [|p rest IH]; intros acc; cbn [fold_left].
    - by rewrite append_empty_r.
    - rewrite IH, string_app_assoc. destruct rest as [|q rest].
      + cbn. by rewrite append_empty_r.
      + reflexivity. }
  by rewrite H.
Qed.

(** X9. A PDF of at most 15 MB that downloads and decodes is stored for
    its sender: the document text is the texts of the pages joined in page
    order with nothing between them, no image stays pending, and history
    and timestamp are those of the session the user had (of a session
    created on the spot otherwise).  When the acknowledgement goes through
    it is the only thing sent. *)
Theorem accepted_document_is_stored (env : Env) (u : User) (document : Document)
    (ctx : gmap Z session) (pages : list string) :
  mime_type document = "application/pdf" ->
  file_size document <= MAX_PDF_SIZE ->
  fetch_pdf_pages env = inr pages ->
  (exists s',
     store_after (handle_document_message env u document) ctx !! id u = Some s' /\
     pdf_text s' = Some (String.concat "" pages) /\
     image_data s' = None /\
     history s' = (if ctx !! id u is Some s then history s else []) /\
     last_seen s' = (if ctx !! id u is Some s then last_seen s else clock env 0%nat)) /\
  (send_ack env = None ->
   sent_by (handle_document_message env u document) ctx
   = [reply_text (get_translation (get_user_language u) "pdf_received")]).
Proof.
  intros Hmime Hsize Hfetch. apply String.eqb_eq in Hmime.
  unfold sent_by, store_after. rewrite handle_document_message_run; cbn [snd].
  rewrite Hmime; cbn [negb].
  destruct (Z.gtb_spec (file_size document) MAX_PDF_SIZE); [lia|].
  rewrite Hfetch; cbn [user_context outbox]. split.
  - rewrite lookup_insert_eq. eexists; split; [done|]. cbn.
    rewrite pdf_text_of_concat. unfold ingest_session.
    by destruct (ctx !! id u).
  - intros Hack. unfold ack_effects. by rewrite Hack.
Qed.

Lemma accepted_document_15MB :
  (exists s',
     store_after (handle_document_message (calm_env 5) alice pdf_15MB)
       {[ 7 := photo_session ]} !! id alice = Some s' /\
     pdf_text s' = Some (String.concat "" ["ab"; "cd"]) /\
     image_data s' = None /\
     history s' = (if ({[ 7 := photo_session ]} : gmap Z session) !! id alice is Some s
                   then history s else []) /\
     last_seen s' = (if ({[ 7 := photo_session ]} : gmap Z session) !! id alice is Some s
                     then last_seen s else clock (calm_env 5) 0%nat)) /\
  (send_ack (calm_env 5) = None ->
   sent_by (handle_document_message (calm_env 5) alice pdf_15MB) {[ 7 := photo_session ]}
   = [reply_text (get_translation (get_user_language alice) "pdf_received")]).
Proof.
  apply (accepted_document_is_stored (calm_env 5) alice pdf_15MB
           {[ 7 := photo_session ]} ["ab"; "cd"]).
  - reflexivity.
  - vm_compute. discriminate.
  - reflexivity.
Defined.

(** X10. A photo of at most 10 MB that downloads is stored for its
    sender: the payload replaces whatever was pending, a document text
    included, and history and timestamp are those of the session the user
    had (of a session created on the spot otherwise). *)
Theorem accepted_photo_is_stored (env : Env) (u : User) (photo : PhotoSize)
    (ctx : gmap Z session) (image_base64 : string) :
  photo_file_size photo <= MAX_IMAGE_SIZE ->
  fetch_image_base64 env = inr image_base64 ->
  (exists s',
     store_after (handle_photo_message env u photo) ctx !! id u = Some s' /\
     image_data s' = Some image_base64 /\
     pdf_text s' = None /\
     history s' = (if ctx !! id u is Some s then history s else []) /\
     last_seen s' = (if ctx !! id u is Some s then last_seen s else clock env 0%nat)) /\
  (send_ack env = None ->
   sent_by (handle_photo_message env u photo) ctx
   = [reply_text (get_translation (get_user_language u) "image_received")]).
Proof.
  intros Hsize Hfetch.
  unfold sent_by, store_after. rewrite handle_photo_message_run; cbn [snd].
  destruct (Z.gtb_spec (photo_file_size photo) MAX_IMAGE_SIZE); [lia|].
  rewrite Hfetch; cbn [user_context outbox]. split.
  - rewrite lookup_insert_eq. eexists; split; [done|]. cbn.
    unfold ingest_session. by destruct (ctx !! id u).
  - intros Hack. unfold ack_effects. by rewrite Hack.
Qed.

Lemma accepted_photo_10MB :
  (exists s',
     store_after (handle_photo_message (calm_env 5) alice photo_10MB)
       {[ 7 := session_with_pdf ]} !! id alice = Some s' /\
     image_data s' = Some "QUJD" /\
     pdf_text s' = None /\
     history s' = (if ({[ 7 := session_with_pdf ]} : gmap Z session) !! id alice is Some s
                   then history s else []) /\
     last_seen s' = (if ({[ 7 := session_with_pdf ]} : gmap Z session) !! id alice is Some s
                     then last_seen s else clock (calm_env 5) 0%nat)) /\
  (send_ack (calm_env 5) = None ->
   sent_by (handle_photo_message (calm_env 5) alice photo_10MB) {[ 7 := session_with_pdf ]}
   = [reply_text (get_translation (get_user_language alice) "image_received")]).
Proof.
  apply (accepted_photo_is_stored (calm_env 5) alice photo_10MB
           {[ 7 := session_with_pdf ]} "QUJD").
  - vm_compute. discriminate.
  - reflexivity.
Defined.

(** X11. The attachment is stored before it is acknowledged: when the
    acknowledgement itself raises, the user receives the generic failure
    notice although the document text, or the image, is pending from then
    on. *)
Theorem failed_acknowledgement_keeps_attachment (env : Env) (u : User)
    (document : Document) (photo : PhotoSize) (ctx : gmap Z session)
    (pages : list string) (image_base64 e : string) :
  send_ack env = Some e ->
  mime_type document = "application/pdf" ->
  file_size document <= MAX_PDF_SIZE ->
  fetch_pdf_pages env = inr pages ->
  photo_file_size photo <= MAX_IMAGE_SIZE ->
  fetch_image_base64 env = inr image_base64 ->
  (sent_by (handle_document_message env u document) ctx
   = [log_error ("Error processing PDF: " +:+ e);
      reply_text (get_translation (get_user_language u) "error_processing")] /\
   exists s',
     store_after (handle_document_message env u document) ctx !! id u = Some s' /\
     pdf_text s' = Some (String.concat "" pages)) /\
  (sent_by (handle_photo_message env u photo) ctx
   = [log_error ("Error processing image: " +:+ e);
      reply_text (get_translation (get_user_language u) "error_processing")] /\
   exists s',
     store_after (handle_photo_message env u photo) ctx !! id u = Some s' /\
     image_data s' = Some image_base64).
Proof.
  intros Hack Hmime Hdsize Hpages Hpsize Himage. apply String.eqb_eq in Hmime.
  unfold sent_by, store_after.
  rewrite handle_document_message_run, handle_photo_message_run; cbn [snd].
  rewrite Hmime; cbn [negb].
  destruct (Z.gtb_spec (file_size document) MAX_PDF_SIZE); [lia|].
  destruct (Z.gtb_spec (photo_file_size photo) MAX_IMAGE_SIZE); [lia|].
  rewrite Hpages, Himage; cbn [user_context outbox].
  unfold ack_effects. rewrite Hack, !lookup_insert_eq.
  split; (split; [done|]); eexists; (split; [done|]); cbn; [|done].
  by rewrite pdf_text_of_concat.
Qed.

Lemma failed_acknowledgement_sample :
  (sent_by (handle_document_message (mute_env 5) alice pdf_1MB) ∅
   = [log_error ("Error processing PDF: " +:+ "TimedOut");
      reply_text (get_translation (get_user_language alice) "error_processing")] /\
   exists s',
     store_after (handle_document_message (mute_env 5) alice pdf_1MB) ∅ !! id alice
     = Some s' /\
     pdf_text s' = Some (String.concat "" ["ab"; "cd"])) /\
  (sent_by (handle_photo_message (mute_env 5) alice photo_5MB) ∅
   = [log_error ("Error processing image: " +:+ "TimedOut");
      reply_text (get_translation (get_user_language alice) "error_processing")] /\
   exists s',
     store_after (handle_photo_message (mute_env 5) alice photo_5MB) ∅ !! id alice
     = Some s' /\
     image_data s' = Some "QUJD").
Proof.
  apply (failed_acknowledgement_keeps_attachment (mute_env 5) alice pdf_1MB photo_5MB
           ∅ ["ab"; "cd"] "QUJD" "TimedOut").
  - reflexivity.
  - reflexivity.
  - vm_compute. discriminate.
  - reflexivity.
  - vm_compute. discriminate.
  - reflexivity.
Defined.

(** X12. A PDF whose pages hold no text is acknowledged like any other,
    but its empty text counts as no document at line 137: the question that
    follows is sent with the history and the text alone. *)
Theorem textless_document_adds_no_context (env env2 : Env) (u : User)
    (document : Document) (text : string) (ctx : gmap Z session) (s : session)
    (pages : list string) :
  ctx !! id u = Some s ->
  mime_type document = "application/pdf" ->
  file_size document <= MAX_PDF_SIZE ->
  fetch_pdf_pages env = inr pages ->
  send_ack env = None ->
  String.concat "" pages = "" ->
  clock env2 0%nat - last_seen s <= timedelta_minutes CONTEXT_TIMEOUT_MINUTES ->
  sent_by (handle_document_message env u document) ctx
  = [reply_text (get_translation (get_user_language u) "pdf_received")] /\
  prompts (sent_by (handle_text_message env2 u text)
             (store_after (handle_document_message env u document) ctx))
  = [[system_prompt] ++ history s ++ [user_turn text]].
Proof.
  intros Hs Hmime Hsize Hpages Hack Hempty Hfresh.
  apply String.eqb_eq in Hmime.
  split.
  { unfold sent_by. rewrite handle_document_message_run; cbn [snd].
    rewrite Hmime; cbn [negb].
    destruct (Z.gtb_spec (file_size document) MAX_PDF_SIZE); [lia|].
    rewrite Hpages; cbn [outbox]. unfold ack_effects. by rewrite Hack. }
  rewrite store_after_document, Hmime; cbn [negb].
  destruct (Z.gtb_spec (file_size document) MAX_PDF_SIZE); [lia|].
  rewrite Hpages, pdf_text_of_concat, Hempty.
  unfold ingest_session. rewrite Hs; cbn [default].
  rewrite prompts_text.
  rewrite (turn_session_active env2 u _
             (set_image_data None (set_pdf_text (Some "") s)));
    [reflexivity | apply lookup_insert_eq | by apply idle_false_iff].
Qed.

Lemma scanned_pdf_then_question :
  sent_by (handle_document_message (scanned_env (minutes 1)) alice pdf_1MB)
    {[ 7 := session_seen_at_0 ]}
  = [reply_text (get_translation (get_user_language alice) "pdf_received")] /\
  prompts (sent_by (handle_text_message (calm_env (minutes 2)) alice "what does it say?")
             (store_after (handle_document_message (scanned_env (minutes 1)) alice pdf_1MB)
                {[ 7 := session_seen_at_0 ]}))
  = [[system_prompt] ++ history session_seen_at_0 ++ [user_turn "what does it say?"]].
Proof.
  apply (textless_document_adds_no_context (scanned_env (minutes 1)) (calm_env (minutes 2))
           alice pdf_1MB "what does it say?" {[ 7 := session_seen_at_0 ]}
           session_seen_at_0 [""; ""]).
  - reflexivity.
  - reflexivity.
  - vm_compute. discriminate.
  - reflexivity.
  - reflexivity.
  - reflexivity.
  - vm_compute. discriminate.
Defined.

Lemma substring_whole (n : nat) :
  forall s, (String.length s <= n)%nat -> substring 0 n s = s.
Proof.
  induction n as [|n IH]; intros s Hn.
  - destruct s; [done | cbn in Hn; lia].
  - destruct s as [|c s]; [done|]. cbn in Hn.
    change (String c (substring 0 n s) = String c s).
    f_equal. apply IH. lia.
Qed.

(** X13. A pending document text of at most 4000 characters reaches the
    prompt whole: the system message before the user's text is the fixed
    prefix followed by the entire text. *)
Theorem short_document_is_embedded_whole (env : Env) (u : User) (text : string)
    (ctx : gmap Z session) (s : session) (txt : string) :
  ctx !! id u = Some s ->
  pdf_text s = Some txt ->
  image_data s = None ->
  txt <> "" ->
  (String.length txt <= 4000)%nat ->
  clock env 0%nat - last_seen s <= timedelta_minutes CONTEXT_TIMEOUT_MINUTES ->
  prompts (sent_by (handle_text_message env u text) ctx)
  = [[system_prompt] ++ history s
       ++ [{| msg_role := system; msg_content := plain (pdf_prefix +:+ txt) |};
           user_turn text]].
Proof.
  intros Hs Hpdf Himg Hne Hlen Hfresh. apply idle_false_iff in Hfresh.
  rewrite prompts_text, (turn_session_active env u _ s Hs Hfresh).
  destruct txt as [|c txt]; [done|].
  rewrite (prompt_for_document _ _ c txt); [|by cbn; rewrite Himg | done].
  unfold pdf_context_message. by rewrite (substring_whole 4000) by done.
Qed.

Lemma four_letter_document_whole :
  prompts (sent_by (handle_text_message (calm_env (minutes 10)) alice "summarise")
             {[ 7 := stale_session ]})
  = [[system_prompt] ++ history stale_session
       ++ [{| msg_role := system; msg_content := plain (pdf_prefix +:+ "abcd") |};
           user_turn "summarise"]].
Proof.
  apply (short_document_is_embedded_whole (calm_env (minutes 10)) alice "summarise"
           {[ 7 := stale_session ]} stale_session "abcd").
  - reflexivity.
  - reflexivity.
  - reflexivity.
  - discriminate.
  - apply Nat.leb_le. vm_compute. reflexivity.
  - vm_compute. discriminate.
Defined.

(** ** Streams that break *)

Lemma stream_loop_without_choices env mid response :
  In (chunk []) response ->
  forall acc, exists e, fst (stream_loop env mid response acc st0) = inl e.
Proof.
  induction response as [|item rest IH]; intros Hin acc; [done|].
  destruct item as [[|delta choices]|e]; cbn.
  - by eexists.
  - destruct Hin as [Hin|Hin]; [done|].
    destruct (truthy delta); [|by apply IH].
    destruct (send_edit env _) as [e|]; [by eexists|].
    unfold mbind, M_bind, emit, st0; cbn.
    rewrite stream_loop_frame; cbn. by apply IH.
  - by eexists.
Qed.

(** X14. A chunk that carries no choices, wherever it stands in the
    stream, costs the whole turn: line 156 raises on it, so the turn ends
    in the [except] branch and the history is the one the turn started
    from, even when the text streamed before it was complete. *)
Theorem chunk_without_choices_loses_turn (env : Env) (u : User) (text : string)
    (ctx : gmap Z session) (response : list stream_item) :
  (exists messages,
     prompts (sent_by (handle_text_message env u text) ctx) = [messages] /\
     api_create env messages = inr response) ->
  In (chunk []) response ->
  exists e s',
    turn_raises env u text ctx e /\
    store_after (handle_text_message env u text) ctx !! id u = Some s' /\
    history s' = turn_history env u ctx.
Proof.
  intros (messages & Hprompt & Hapi) Hin.
  assert (Hraise : exists e, streamed env messages = inl e).
  { unfold streamed, stream_reply, mbind, M_bind, emit, st0; cbn.
    rewrite Hapi. unfold mret, M_ret; cbn.
    destruct (send_placeholder env) as [e|mid]; [by eexists|]; cbn.
    rewrite stream_loop_frame; cbn.
    by apply stream_loop_without_choices. }
  destruct Hraise as [e Hraise]. exists e.
  pose proof Hprompt as Hprompt'.
  rewrite prompts_text in Hprompt'. injection Hprompt' as Hm.
  eexists. split; [by exists messages|].
  rewrite store_after_text, lookup_insert_eq. split; [done|].
  unfold turn_result. rewrite Hm, Hraise.
  by rewrite history_after_assembly, history_turn_session.
Qed.

Lemma usage_chunk_loses_reply :
  exists e s',
    turn_raises (usage_chunk_env (minutes 1)) alice "hi" {[ 7 := session_seen_at_0 ]} e /\
    store_after (handle_text_message (usage_chunk_env (minutes 1)) alice "hi")
      {[ 7 := session_seen_at_0 ]} !! id alice = Some s' /\
    history s' = turn_history (usage_chunk_env (minutes 1)) alice {[ 7 := session_seen_at_0 ]}.
Proof.
  apply (chunk_without_choices_loses_turn (usage_chunk_env (minutes 1)) alice "hi"
           {[ 7 := session_seen_at_0 ]} [chunk [Some "Hello"]; chunk []]).
  - exists ([system_prompt] ++ history session_seen_at_0 ++ [user_turn "hi"]).
    split; vm_compute; reflexivity.
  - right. left. reflexivity.
Defined.

(** ** Shape of the history *)

Lemma exchanges_app turns1 turns2 :
  exchanges (turns1 ++ turns2) = exchanges turns1 ++ exchanges turns2.
Proof. apply flat_map_app. Qed.

Lemma paired_fresh t : paired (fresh_session t).
Proof. by exists []. Qed.

Lemma paired_turn_session env u ctx :
  map_Forall (fun _ => paired) ctx -> paired (turn_session env u ctx).
Proof.
  intros Hctx. unfold turn_session.
  destruct (ctx !! id u) as [s|] eqn:Hs; [|apply paired_fresh].
  destruct (idle env s); [apply paired_fresh|]. apply (Hctx _ _ Hs).
Qed.

Lemma paired_turn_result env text s : paired s -> paired (turn_result env text s).
Proof.
  intros [turns Hturns]. unfold turn_result, paired.
  destruct (streamed env _) as [e|full]; cbn [history history_append];
    rewrite history_after_assembly, Hturns.
  - by exists turns.
  - exists (turns ++ [(text, full)]). by rewrite exchanges_app, <- app_assoc.
Qed.

Lemma paired_ingest_session env u ctx :
  map_Forall (fun _ => paired) ctx -> paired (ingest_session env u ctx).
Proof.
  intros Hctx. unfold ingest_session.
  destruct (ctx !! id u) as [s|] eqn:Hs; cbn; [apply (Hctx _ _ Hs) | apply paired_fresh].
Qed.

Lemma dispatch_preserves_paired env upd ctx :
  map_Forall (fun _ => paired) ctx ->
  map_Forall (fun _ => paired) (store_after (dispatch env upd) ctx).
Proof.
  intros Hctx. unfold dispatch.
  destruct (update_payload upd) as [name|body|document|photo|mime| |inner|inner].
  5-8: by repeat case_match; first [done | left | constructor].
  - destruct (String.eqb (lower name) "start").
    { rewrite store_after_start.
      apply map_Forall_insert_2; [apply paired_fresh | done]. }
    destruct (String.eqb (lower name) "help"); [done|].
    destruct (String.eqb (lower name) "reset"); [|done].
    rewrite store_after_reset.
    destruct (ctx !! id (from_user upd)); [|done].
    apply map_Forall_insert_2; [apply paired_fresh | done].
  - rewrite store_after_text.
    apply map_Forall_insert_2; [|done].
    by apply paired_turn_result, paired_turn_session.
  - destruct (String.eqb _ _); [|done].
    rewrite store_after_document.
    destruct (negb _); [done|]. destruct (_ >? _); [done|].
    destruct (fetch_pdf_pages env); [done|].
    apply map_Forall_insert_2; [|done].
    apply (paired_ingest_session env (from_user upd) ctx Hctx).
  - rewrite store_after_photo.
    destruct (_ >? _); [done|].
    destruct (fetch_image_base64 env); [done|].
    apply map_Forall_insert_2; [|done].
    apply (paired_ingest_session env (from_user upd) ctx Hctx).
Qed.

(** X15. In every store reached from the empty one, the history of every
    session is a sequence of completed exchanges: a plain user entry
    followed by a plain assistant entry, again and again, and nothing
    else; no question is ever recorded without its answer. *)
Theorem history_is_exchanges (evs : list (Env * Update)) (user_id : Z) (s : session) :
  run_updates evs ∅ !! user_id = Some s ->
  exists turns, history s = exchanges turns.
Proof.
  revert user_id s.
  change (map_Forall (fun _ => paired) (run_updates evs ∅)).
  assert (H : forall ctx,
             map_Forall (fun _ => paired) ctx ->
             map_Forall (fun _ => paired) (run_updates evs ctx)).
  { induction evs as [|[env upd] rest IH]; intros ctx Hctx; cbn; [done|].
    by apply IH, dispatch_preserves_paired. }
  apply H, map_Forall_empty.
Qed.

Lemma history_after_three_texts :
  exists turns,
    history {| history := [user_turn "hi"; assistant_turn "Hello";
                           user_turn "again"; assistant_turn "Hello"];
               last_seen := minutes 3; pdf_text := None; image_data := None |}
    = exchanges turns.
Proof.
  apply (history_is_exchanges hello_from_alice 7).
  vm_compute. reflexivity.
Defined.

(** ** Everything the bot sends *)

(** The effects of a dispatched update are drawn from a fixed repertoire:
    the notices below, the typing action, log lines and what the relay
    sends.  The unsupported-file notice is not among them. *)
Lemma dispatch_sends_only (P : effect -> Prop) env upd ctx :
  P (reply_text (get_translation (get_user_language (from_user upd)) "welcome")) ->
  P (reply_markdown (get_translation (get_user_language (from_user upd)) "help")) ->
  P (reply_text (get_translation (get_user_language (from_user upd)) "reset")) ->
  P (reply_text (get_translation (get_user_language (from_user upd)) "pdf_too_large")) ->
  P (reply_text (get_translation (get_user_language (from_user upd)) "image_too_large")) ->
  P (reply_text (get_translation (get_user_language (from_user upd)) "pdf_received")) ->
  P (reply_text (get_translation (get_user_language (from_user upd)) "image_received")) ->
  P (reply_text (get_translation (get_user_language (from_user upd)) "error_processing")) ->
  P send_chat_action_typing ->
  (forall m, P (log_error m)) ->
  (forall messages, Forall P (stream_effects env messages)) ->
  Forall P (sent_by (dispatch env upd) ctx).
Proof.
  intros Hwelcome Hhelp Hreset Hpdfl Himgl Hpdfr Himgr Herr Htyping Hlog Hrelay.
  unfold dispatch.
  destruct (update_payload upd) as [name|body|document|photo|mime| |inner|inner].
  5-8: by repeat case_match; first [done | left | constructor].
  - destruct (String.eqb (lower name) "start"); [by repeat constructor|].
    destruct (String.eqb (lower name) "help"); [by repeat constructor|].
    destruct (String.eqb (lower name) "reset"); [|by constructor].
    rewrite sent_by_reset. by repeat constructor.
  - rewrite sent_by_text. unfold turn_preamble, turn_epilogue.
    repeat apply Forall_app_2; try apply Hrelay.
    + destruct (ctx !! id (from_user upd)) as [s|]; [destruct (idle env s)|];
        by repeat constructor.
    + by repeat constructor.
    + destruct (streamed env _); by repeat constructor.
  - destruct (String.eqb (mime_type document) "application/pdf") eqn:Hmime;
      [|by constructor].
    unfold sent_by. rewrite handle_document_message_run; cbn [snd].
    rewrite Hmime; cbn [negb].
    destruct (_ >? _); [by repeat constructor|].
    destruct (fetch_pdf_pages env); cbn [outbox]; [by repeat constructor|].
    unfold ack_effects. destruct (send_ack env); by repeat constructor.
  - unfold sent_by. rewrite handle_photo_message_run; cbn [snd].
    destruct (_ >? _); [by repeat constructor|].
    destruct (fetch_image_base64 env); cbn [outbox]; [by repeat constructor|].
    unfold ack_effects. destruct (send_ack env); by repeat constructor.
Qed.

Lemma help_text_nonempty lang : get_translation lang "help" <> "".
Proof. rewrite get_translation_en_table. vm_compute. discriminate. Qed.

(** X16. No handler ever asks Telegram to send or to show an empty text:
    every reply and every edit of every dispatched update carries at least
    one character, whatever the language code of the sender, whatever the
    stream delivers. *)
Theorem never_sends_empty_text (env : Env) (upd : Update) (ctx : gmap Z session) :
  Forall carries_text (sent_by (dispatch env upd) ctx).
Proof.
  destruct (translation_values (get_user_language (from_user upd)))
    as (Hw & Hr & Hpr & Hpl & Hil & _ & He & Hir).
  apply dispatch_sends_only; cbn [carries_text];
    rewrite ?Hw, ?Hr, ?Hpr, ?Hpl, ?Hil, ?He, ?Hir;
    try done; try apply help_text_nonempty.
  intros messages. apply stream_effects_relay.
Qed.

(** X17. The unsupported-file notice of line 176 is never sent: documents
    reach [handle_document_message] through [filters.Document.PDF] only,
    so a document of another type gets no answer at all, and no other
    update produces that notice either. *)
Theorem unsupported_notice_never_sent (env : Env) (upd : Update) (ctx : gmap Z session) :
  ~ In (reply_text (get_translation (get_user_language (from_user upd)) "unsupported_file"))
       (sent_by (dispatch env upd) ctx) /\
  match update_payload upd with
  | DocumentMessage document =>
      mime_type document <> "application/pdf" ->
      sent_by (dispatch env upd) ctx = [] /\ store_after (dispatch env upd) ctx = ctx
  | _ => True
  end.
Proof.
  split.
  - destruct (translation_values (get_user_language (from_user upd)))
      as (Hw & Hr & Hpr & Hpl & Hil & Hu & He & Hir).
    intros Hin.
    assert (H : Forall (fun e => e <> reply_text "Sorry, I only support PDF and image files.")
                  (sent_by (dispatch env upd) ctx)).
    { apply dispatch_sends_only; rewrite ?Hw, ?Hr, ?Hpr, ?Hpl, ?Hil, ?He, ?Hir;
        try done.
      intros messages. destruct (stream_effects_relay env messages) as [Hrelay _].
      eapply Forall_impl; [apply Hrelay|].
      intros [t| | | | |] Ht; cbn in Ht; try done. by rewrite Ht. }
    rewrite Hu in Hin. rewrite List.Forall_forall in H. by apply H in Hin.
  - destruct (update_payload upd) as [name|body|document|photo|mime| |inner|inner] eqn:Hp;
      try done.
    intros Hmime. apply String.eqb_neq in Hmime.
    unfold dispatch. by rewrite Hp, Hmime.
Qed.

(** ** Commands *)

Lemma prompt_on_fresh_session env u text ctx t :
  ctx !! id u = Some (fresh_session t) \/ ctx !! id u = None ->
  prompts (sent_by (handle_text_message env u text) ctx)
  = [[system_prompt; user_turn text]].
Proof.
  intros Hs. rewrite prompts_text. unfold turn_session.
  destruct Hs as [-> | ->]; [|done].
  by destruct (idle env _).
Qed.

(** X18. [/start] and [/reset] wipe the context for good: whatever the
    session held before and however long the user then waits, the next
    text message submits the system instruction and its own text alone.
    [/start] in addition always leaves a session, created at its clock
    reading, and answers with the welcome text. *)
Theorem commands_clear_context (env env2 : Env) (u : User) (text : string)
    (ctx : gmap Z session) :
  prompts (sent_by (handle_text_message env2 u text)
             (store_after (start_command env u) ctx))
  = [[system_prompt; user_turn text]] /\
  prompts (sent_by (handle_text_message env2 u text)
             (store_after (reset_command env u) ctx))
  = [[system_prompt; user_turn text]] /\
  store_after (start_command env u) ctx !! id u
  = Some {| history := []; last_seen := clock env 0%nat;
            pdf_text := None; image_data := None |} /\
  sent_by (start_command env u) ctx
  = [reply_text (get_translation (get_user_language u) "welcome")].
Proof.
  split; [|split; [|split]].
  - apply (prompt_on_fresh_session _ _ _ _ (clock env 0%nat)). left.
    by rewrite store_after_start, lookup_insert_eq.
  - apply (prompt_on_fresh_session _ _ _ _ (clock env 0%nat)).
    rewrite store_after_reset.
    destruct (ctx !! id u) eqn:Hs; [left; by rewrite lookup_insert_eq | by right].
  - by rewrite store_after_start, lookup_insert_eq.
  - reflexivity.
Qed.

(** X19. The command menu registered at start-up and the command handlers
    agree: a command, in whatever letter case it is typed, gets an answer
    exactly when its lower-cased name is one of the three commands of the
    menu; any other command is ignored and changes nothing. *)
Theorem menu_commands_are_answered (env : Env) (u : User) (name : string)
    (ctx : gmap Z session) :
  (In (lower name) (map fst bot_commands) <->
   sent_by (dispatch env {| from_user := u; update_payload := Command name |}) ctx <> []) /\
  (~ In (lower name) (map fst bot_commands) ->
   store_after (dispatch env {| from_user := u; update_payload := Command name |}) ctx
   = ctx).
Proof.
  unfold dispatch; cbn [update_payload from_user bot_commands map fst In].
  destruct (String.eqb_spec (lower name) "start") as [Estart|Hstart].
  { rewrite Estart. split; [split; [done | by left]|].
    intros Hn. exfalso. apply Hn. by left. }
  destruct (String.eqb_spec (lower name) "help") as [Ehelp|Hhelp].
  { rewrite Ehelp. split; [split; [done | by right; left]|].
    intros Hn. exfalso. apply Hn. by right; left. }
  destruct (String.eqb_spec (lower name) "reset") as [Ereset|Hreset].
  { rewrite Ereset. split; [split; [by rewrite sent_by_reset | by right; right; left]|].
    intros Hn. exfalso. apply Hn. by right; right; left. }
  split; [|done]. split; [|done].
  intros [H|[H|[H|[]]]]; congruence.
Qed.

Lemma shouted_start_is_answered :
  sent_by (dispatch (calm_env 0) {| from_user := alice; update_payload := Command "START" |})
    {[ 7 := stale_session ]}
  = [reply_text "Welcome! I'm an AI assistant. I can help you with text, images, and PDFs. How can I assist you?"] /\
  sent_by (dispatch (calm_env 0) {| from_user := alice; update_payload := Command "Reset" |})
    {[ 7 := stale_session ]}
  = [reply_text "Our conversation history has been cleared."] /\
  sent_by (dispatch (calm_env 0) {| from_user := alice; update_payload := Command "stop" |})
    {[ 7 := stale_session ]}
  = [].
Proof. repeat split; vm_compute; reflexivity. Qed.
